(** * MatchZoo data generators (matchzoo/data_generator/data_generator.py)

    A shallow embedding of the [DataGenerator] class hierarchy: the
    partitioning of the instance indices into batches, the batch access
    by index or slice, and the five batch materializers.  Python objects
    that are shared and mutated (data packs) live in a store; the
    generator's methods are computations in a state-and-exception monad
    over that store, the generator's own attributes and the state of the
    global random source. *)

From Stdlib Require Import ZArith Lia.
From stdpp Require Import base numbers option list sorting gmap.

Local Open Scope Z_scope.

(** ** Python values the module relies on *)

Module Py.

(** The exceptions that the modelled code can raise. *)
Inductive exn : Set :=
| ZeroDivisionError   (* [len(dp) / 0] *)
| ValueError          (* [len(obj)] with a negative [__len__], slice step 0 *)
| IndexError          (* list index out of range *)
| AttributeError      (* attribute access on [None] *)
| KeyError            (* a data pack sliced at a position it does not have *)
| TypeError           (* subscript or call of [None] *)
| ReferenceError.     (* a reference that the store does not hold *)

Inductive result (A : Type) : Type :=
| Ok (a : A)
| Raise (e : exn).
Global Arguments Ok {A} a.
Global Arguments Raise {A} e.

Definition is_ok {A} (r : result A) : bool :=
  match r with Ok _ => true | Raise _ => false end.

(** [len(l)] of a list. *)
Definition len {A} (l : list A) : Z := Z.of_nat (length l).

(** [range(n)]: empty when [n <= 0]. *)
Definition range (n : Z) : list Z := seqZ 0 n.

(** [l[i]] for an integer [i]: a negative [i] counts from the end. *)
Definition getitem {A} (l : list A) (i : Z) : result A :=
  let j := if i <? 0 then i + len l else i in
  if (0 <=? j) && (j <? len l) then
    match l !! Z.to_nat j with
    | Some x => Ok x
    | None => Raise IndexError
    end
  else Raise IndexError.

(** [slice(start, stop, step)]; [None] is an omitted bound. *)
Record slice : Set := Slice {
  slice_start : option Z;
  slice_stop : option Z;
  slice_step : option Z
}.

(** One bound of a slice brought into the list (CPython's
    [PySlice_AdjustIndices]). *)
Definition adjust (n step v : Z) : Z :=
  if v <? 0 then
    (if v + n <? 0 then (if step <? 0 then -1 else 0) else v + n)
  else if n <=? v then (if step <? 0 then n - 1 else n)
  else v.

(** [s.indices(n)]: the start, stop and step the slice has on a
    sequence of length [n]. *)
Definition indices (s : slice) (n : Z) : result (Z * Z * Z) :=
  let step := default 1 (slice_step s) in
  if step =? 0 then Raise ValueError
  else
    let start :=
      match slice_start s with
      | Some v => adjust n step v
      | None => if step <? 0 then n - 1 else 0
      end in
    let stop :=
      match slice_stop s with
      | Some v => adjust n step v
      | None => if step <? 0 then -1 else n
      end in
    Ok (start, stop, step).

(** The number of positions of an adjusted slice. *)
Definition slicelength (start stop step : Z) : Z :=
  if step <? 0 then
    (if stop <? start then (start - stop - 1) / (- step) + 1 else 0)
  else
    (if start <? stop then (stop - start - 1) / step + 1 else 0).

(** The positions of an adjusted slice, in the order of the slice. *)
Definition positions (start stop step : Z) : list Z :=
  (fun k : nat => start + Z.of_nat k * step)
    <$> seq 0 (Z.to_nat (slicelength start stop step)).

(** The positions that [s] selects in a sequence of length [n]. *)
Definition slice_positions (s : slice) (n : Z) : result (list Z) :=
  match indices s n with
  | Ok (start, stop, step) => Ok (positions start stop step)
  | Raise e => Raise e
  end.

(** [l[s]] for a slice [s]. *)
Definition getslice {A} (l : list A) (s : slice) : result (list A) :=
  match slice_positions s (len l) with
  | Ok ps => Ok (omap (fun p : Z => l !! Z.to_nat p) ps)
  | Raise e => Raise e
  end.

(** [sum(ls, [])]: the lists of [ls] added up from the left. *)
Definition sum_lists {A} (ls : list (list A)) : list A :=
  fold_left (fun acc l => acc ++ l) ls [].

(** [math.ceil(a / b)] for integers [a] and [b <> 0].  The quotient is
    taken exactly; the float that Python computes gives the same
    ceiling as long as [|a| < 2^53]. *)
Definition ceil_div (a b : Z) : Z := - ((- a) `div` b).

End Py.

Import Py.

(** ** The vocabulary of the partition *)

(** Batch [i] of [index_pool] for a positive batch size. *)
Definition chunk (index_pool : list Z) (batch_size i : Z) : list Z :=
  take (Z.to_nat batch_size) (drop (Z.to_nat (batch_size * i)) index_pool).

(** The claim about slices in the spec's words: the index lists of the
    positions that the slice refers to, concatenated in the order of the
    table. *)
Definition indices_in_table_order (table : list (list Z)) (sl : slice)
    : result (list Z) :=
  match slice_positions sl (len table) with
  | Ok ps => Ok (concat (omap (fun p : Z => table !! Z.to_nat p) (merge_sort Z.le ps)))
  | Raise e => Raise e
  end.

(** ** The store, the generator object and the monad of its methods *)

(** References to data packs in the store. *)
Abbreviation loc := positive.

Section Model.

(** The contents of a text cell and of a label cell. *)
Context {Value Label : Type}.

(** The state of the global random source of [numpy]. *)
Context {Rng : Type}.

(** Modelled from the spec: the dataset collaborator (matchzoo's
    [DataPack], not part of this module) is an ordered collection of
    labeled pair-instances with a left text, a right text and a label. *)
Record Instance : Type := MkInstance {
  text_left : Value;
  text_right : Value;
  label : Label
}.

Abbreviation DataPack := (list Instance).

(** What [unpack()] returns: the feature columns and the labels. *)
Record Features : Type := MkFeatures {
  x_text_left : list Value;
  x_text_right : list Value
}.

Abbreviation Batch := (Features * list Label)%type.

(** A preprocessing unit: an object with a [transform] method. *)
Record Unit : Type := MkUnit { transform : Value -> Value }.

(** [np.random.permutation(n).tolist()]: consumes the random source. *)
Variable permutation : Z -> Rng -> list Z * Rng.

(** [matchzoo.upsample(dp, num_dup, num_neg)]: an opaque collaborator
    that builds a new data pack and may consume the random source. *)
Variable upsample : DataPack -> Z -> Z -> Rng -> DataPack * Rng.

(** The classes of the module, each with the attributes its own
    constructor sets; [None] is the default of [unit] and of [func]. *)
Inductive GeneratorClass : Type :=
| DataGenerator
| UnitDynamicDataGenerator (_unit : option Unit)
| DynamicDataGenerator (_func : option (Value -> Value))
| OrigPairGeneratorUsingNewInterface (_num_neg _num_dup : Z)
| DataGeneratorFusion (_num_neg _num_dup : Z) (_unit : option Unit).

(** The attributes that [DataGenerator.__init__] sets on [self]. *)
Record Attrs : Type := MkAttrs {
  class_of : GeneratorClass;
  _data_pack : loc;
  _batch_size : Z;
  _shuffle : bool;
  _batch_indices : option (list (list Z))
}.

(** Modelled from the spec: the objects of the store are data packs
    with instances of their own, and views.  A view ([DatasetView], what
    slicing by indices returns) has no instances of its own: it shows the
    instances that its base holds at the listed positions, and a write to
    a column of the view is a write to the base. *)
Inductive Object : Type :=
| Rows (d : DataPack)
| View (base : loc) (positions : list Z).

Record Store : Type := MkStore { objects : gmap loc Object }.

(** Modelled from the spec: [sliceByIndices] keeps the instances at the
    listed positions, in the order of the list; a position that the data
    pack does not have is an error. *)
Fixpoint slice_by_indices (d : DataPack) (indices : list Z) : result DataPack :=
  match indices with
  | [] => Ok []
  | i :: rest =>
      match (if 0 <=? i then d !! Z.to_nat i else None) with
      | None => Raise KeyError
      | Some x =>
          match slice_by_indices d rest with
          | Ok xs => Ok (x :: xs)
          | Raise e => Raise e
          end
      end
  end.

(** The instances that the object at [l] shows, if the store has it. *)
Definition rows_of (st : Store) (l : loc) : option DataPack :=
  match objects st !! l with
  | Some (Rows d) => Some d
  | Some (View base positions) =>
      match objects st !! base with
      | Some (Rows d) =>
          match slice_by_indices d positions with
          | Ok sl => Some sl
          | Raise _ => None
          end
      | _ => None
      end
  | None => None
  end.

(** [st !! l] is the data pack that a reader of the object [l] sees. *)
Global Instance Store_lookup : Lookup loc DataPack Store :=
  fun l st => rows_of st l.

(** [st ⊆ st']: every object of [st] is in [st'] and shows the same
    instances there. *)
Global Instance Store_subseteq : SubsetEq Store :=
  fun st st' => forall l d, st !! l = Some d -> st' !! l = Some d.

Record State : Type := MkState {
  self : Attrs;
  heap : Store;
  rng : Rng
}.

Definition set_batch_indices (t : option (list (list Z))) (s : State) : State :=
  MkState
    (MkAttrs (class_of (self s)) (_data_pack (self s)) (_batch_size (self s))
             (_shuffle (self s)) t)
    (heap s) (rng s).

Definition set_heap (h : Store) (s : State) : State :=
  MkState (self s) h (rng s).

Definition set_rng (g : Rng) (s : State) : State :=
  MkState (self s) (heap s) g.

(** Computations that read and write the state and may raise; the
    state reached when an exception is raised is kept. *)
Definition M (A : Type) : Type := State -> result A * State.

Definition ret {A} (a : A) : M A := fun s => (Ok a, s).

Definition bind {A B} (m : M A) (k : A -> M B) : M B :=
  fun s =>
    match m s with
    | (Ok a, s') => k a s'
    | (Raise e, s') => (Raise e, s')
    end.

Definition raise {A} (e : exn) : M A := fun s => (Raise e, s).

Definition lift {A} (r : result A) : M A := fun s => (r, s).

Definition gets {A} (f : State -> A) : M A := fun s => (Ok (f s), s).

Definition modify (f : State -> State) : M unit := fun s => (Ok tt, f s).

Notation "'let*' x ':=' m 'in' k" := (bind m (fun x => k))
  (at level 10, x name, m at level 100, k at level 200, only parsing).
Notation "m ';;;' k" := (bind m (fun _ => k))
  (at level 100, k at level 200, right associativity, only parsing).

(** [for x in xs: body(x)] *)
Fixpoint for_each {A} (xs : list A) (body : A -> M unit) : M unit :=
  match xs with
  | [] => ret tt
  | x :: xs' => body x ;;; for_each xs' body
  end.

(** *** The store *)

(** A new object at a reference that the store does not hold yet. *)
Definition alloc_object (o : Object) : M loc :=
  fun s =>
    let l := fresh (dom (objects (heap s))) in
    (Ok l, set_heap (MkStore (<[l := o]> (objects (heap s)))) s).

Definition alloc (d : DataPack) : M loc := alloc_object (Rows d).

Definition load (l : loc) : M DataPack :=
  fun s =>
    match heap s !! l with
    | Some d => (Ok d, s)
    | None => (Raise ReferenceError, s)
    end.

(** The instances of [d] written over the instances of [base] at the
    positions of a view. *)
Definition write_through (base : DataPack) (positions : list Z) (d : DataPack)
    : DataPack :=
  fold_left (fun acc px => <[Z.to_nat px.1 := px.2]> acc) (zip positions d) base.

(** The instances [d] written to the object [l]: to its own instances,
    or through a view to the instances of its base. *)
Definition store (l : loc) (d : DataPack) : M unit :=
  fun s =>
    match objects (heap s) !! l with
    | Some (Rows _) =>
        (Ok tt, set_heap (MkStore (<[l := Rows d]> (objects (heap s)))) s)
    | Some (View base positions) =>
        match objects (heap s) !! base with
        | Some (Rows b) =>
            (Ok tt,
             set_heap
               (MkStore (<[base := Rows (write_through b positions d)]>
                           (objects (heap s)))) s)
        | _ => (Raise ReferenceError, s)
        end
    | None => (Raise ReferenceError, s)
    end.

(** *** The data pack's methods *)

(** The positions in the base of a view of the instances that the view
    shows at [indices]. *)
Definition positions_at (positions : list Z) (indices : list Z) : list Z :=
  omap (fun i : Z => if 0 <=? i then positions !! Z.to_nat i else None) indices.

(** The view of the object [r] at [indices]: a view of a view is a view
    of the same base. *)
Definition view_of (st : Store) (r : loc) (indices : list Z) : Object :=
  match objects st !! r with
  | Some (View base positions) => View base (positions_at positions indices)
  | _ => View r indices
  end.

(** Modelled from the spec: [dp[indices]] is a view of [dp], a new
    object that shares the instances with it; it is an error to ask for
    a position that [dp] does not have. *)
Definition DataPack_getitem (r : loc) (indices : list Z) : M loc :=
  let* d := load r in
  lift (slice_by_indices d indices) ;;;
  let* view := gets (fun s => view_of (heap s) r indices) in
  alloc_object view.

(** Modelled from the spec: [dp.copy()] is a new object with instances
    of its own, equal to those that [dp] shows. *)
Definition DataPack_copy (r : loc) : M loc :=
  let* d := load r in
  alloc d.

(** [len(dp)] *)
Definition DataPack_len (r : loc) : M Z :=
  let* d := load r in
  ret (len d).

(** [dp.left['text_left']] and [dp.right['text_right']], read. *)
Definition get_text_left (r : loc) : M (list Value) :=
  let* d := load r in
  ret (text_left <$> d).

Definition get_text_right (r : loc) : M (list Value) :=
  let* d := load r in
  ret (text_right <$> d).

(** [dp.left['text_left'] = col] and [dp.right['text_right'] = col]:
    the object [r] itself is changed, or its base when it is a view. *)
Definition set_text_left (r : loc) (col : list Value) : M unit :=
  let* d := load r in
  store r (zip_with (fun v x => MkInstance v (text_right x) (label x)) col d).

Definition set_text_right (r : loc) (col : list Value) : M unit :=
  let* d := load r in
  store r (zip_with (fun v x => MkInstance (text_left x) v (label x)) col d).

(** [series.apply(func)]: [func] is called on every cell of the column;
    calling [None] raises TypeError, and an empty column calls nothing. *)
Definition apply (func : option (Value -> Value)) (col : list Value)
    : result (list Value) :=
  match func with
  | Some f => Ok (f <$> col)
  | None => match col with [] => Ok [] | _ :: _ => Raise TypeError end
  end.

Definition unpack_pack (d : DataPack) : Batch :=
  (MkFeatures (text_left <$> d) (text_right <$> d), label <$> d).

(** Modelled from the spec: [dp.unpack()] gives the features and the
    labels of the instances, in their order. *)
Definition unpack (r : loc) : M Batch :=
  let* d := load r in
  ret (unpack_pack d).

(** The call [upsample(dp, num_dup=.., num_neg=..)]: a new object. *)
Definition call_upsample (r : loc) (num_dup num_neg : Z) : M loc :=
  let* d := load r in
  let* g := gets rng in
  modify (set_rng (upsample d num_dup num_neg g).2) ;;;
  alloc (upsample d num_dup num_neg g).1.

(** [np.random.permutation(n).tolist()] *)
Definition np_random_permutation (n : Z) : M (list Z) :=
  let* g := gets rng in
  modify (set_rng (permutation n g).2) ;;;
  ret (permutation n g).1.

(** [unit.transform] for the attribute [_unit], [None] by default. *)
Definition unit_transform (u : option Unit) : M (Value -> Value) :=
  match u with
  | Some u => ret (transform u)
  | None => raise AttributeError
  end.

(** ** class DataGenerator *)

(** [__len__]: [math.ceil(len(self._data_pack) / self._batch_size)] *)
Definition __len__ : M Z :=
  let* me := gets self in
  let* n := DataPack_len (_data_pack me) in
  if _batch_size me =? 0 then raise ZeroDivisionError
  else ret (ceil_div n (_batch_size me)).

(** [len(self)]: the built-in refuses a negative [__len__]. *)
Definition len_self : M Z :=
  let* n := __len__ in
  if n <? 0 then raise ValueError else ret n.

(** [self._batch_indices.append(chunk)] *)
Definition append_batch (chunk : list Z) : M unit :=
  let* me := gets self in
  match _batch_indices me with
  | Some t => modify (set_batch_indices (Some (t ++ [chunk])))
  | None => raise AttributeError
  end.

Definition _set_indices : M unit :=
  let* me := gets self in
  let* num_instances := DataPack_len (_data_pack me) in
  let* index_pool :=
    (if _shuffle me then np_random_permutation num_instances
     else ret (range num_instances)) in
  modify (set_batch_indices (Some [])) ;;;
  let* n := len_self in
  for_each (range n) (fun i =>
    let lower := _batch_size me * i in
    let upper := _batch_size me * (i + 1) in
    let* chunk := lift (getslice index_pool (Slice (Some lower) (Some upper) None)) in
    append_batch chunk).

(** The constructors: [DataGenerator.__init__] sets the attributes and
    partitions; a subclass then sets the attributes of its own, which
    [class_of] holds from the start as nothing reads them before. *)
Definition __init__ (cls : GeneratorClass) (data_pack : loc)
    (batch_size : Z) (shuffle : bool)
    (h : Store) (g : Rng) : result unit * State :=
  _set_indices (MkState (MkAttrs cls data_pack batch_size shuffle None) h g).

Definition on_epoch_end : M unit := _set_indices.

Definition reset : M unit := _set_indices.

(** The argument of [__getitem__]: an integer or a slice. *)
Inductive Item : Set :=
| Index (i : Z)
| Range (s : slice).

(** The index list that [__getitem__] computes for [item]. *)
Definition item_indices (item : Item) : M (list Z) :=
  let* me := gets self in
  match _batch_indices me with
  | None => raise TypeError
  | Some table =>
      match item with
      | Range s =>
          let* batches := lift (getslice table s) in
          ret (sum_lists batches)
      | Index i => lift (getitem table i)
      end
  end.

(** The transform of both text columns of the object [dp]. *)
Definition transform_columns (dp : loc) (func : option (Value -> Value)) : M unit :=
  let* left := get_text_left dp in
  let* left' := lift (apply func left) in
  set_text_left dp left' ;;;
  let* right := get_text_right dp in
  let* right' := lift (apply func right) in
  set_text_right dp right'.

(** [_get_batch_of_transformed_samples], by the class of [self]. *)
Definition _get_batch_of_transformed_samples (indices : list Z) : M Batch :=
  let* me := gets self in
  match class_of me with
  | DataGenerator =>
      let* sl := DataPack_getitem (_data_pack me) indices in
      unpack sl
  | UnitDynamicDataGenerator u =>
      let* sl := DataPack_getitem (_data_pack me) indices in
      let* dp := DataPack_copy sl in
      let* func := unit_transform u in
      transform_columns dp (Some func) ;;;
      unpack dp
  | DynamicDataGenerator func =>
      let* sl := DataPack_getitem (_data_pack me) indices in
      let* dp := DataPack_copy sl in
      transform_columns dp func ;;;
      unpack dp
  | OrigPairGeneratorUsingNewInterface num_neg num_dup =>
      let* sl := DataPack_getitem (_data_pack me) indices in
      let* up := call_upsample sl num_dup num_neg in
      unpack up
  | DataGeneratorFusion num_neg num_dup u =>
      let* sl := DataPack_getitem (_data_pack me) indices in
      let* dp := DataPack_copy sl in
      let* func := unit_transform u in
      transform_columns dp (Some func) ;;;
      let* up := call_upsample dp num_dup num_neg in
      unpack up
  end.

Definition __getitem__ (item : Item) : M Batch :=
  let* indices := item_indices item in
  _get_batch_of_transformed_samples indices.

(** ** The calls of a training loop *)

Inductive Call : Set :=
| CallGetitem (item : Item)
| CallLen
| CallOnEpochEnd
| CallReset.

Definition is_repartition (c : Call) : bool :=
  match c with
  | CallOnEpochEnd | CallReset => true
  | CallGetitem _ | CallLen => false
  end.

(** The state after a call, whether it returned or raised. *)
Definition run_call (c : Call) (s : State) : State :=
  match c with
  | CallGetitem item => (__getitem__ item s).2
  | CallLen => (len_self s).2
  | CallOnEpochEnd => (on_epoch_end s).2
  | CallReset => (reset s).2
  end.

Definition run_calls (cs : list Call) (s : State) : State :=
  fold_left (fun s c => run_call c s) cs s.

(** The states of a generator that was constructed and then used. *)
Inductive reachable : State -> Prop :=
| reach_init cls dp bs sh h g s :
    __init__ cls dp bs sh h g = (Ok tt, s) -> reachable s
| reach_call c s : reachable s -> reachable (run_call c s).

(** ** The vocabulary of the properties *)

(** The index pool that [_set_indices] draws in state [s] for a data
    pack of [n] instances, and the state after the draw. *)
Definition index_pool_of (s : State) (n : Z) : list Z :=
  if _shuffle (self s) then (permutation n (rng s)).1 else range n.

Definition after_draw (s : State) (n : Z) : State :=
  if _shuffle (self s) then set_rng (permutation n (rng s)).2 s else s.


(** The partition table of [s] is the one that [_set_indices] builds
    for the data pack of [s]. *)
Definition partitioned (s : State) : Prop :=
  exists d s0,
    heap s !! _data_pack (self s) = Some d /\
    _batch_size (self s) <> 0 /\
    0 <= ceil_div (len d) (_batch_size (self s)) /\
    _batch_indices (self s)
    = Some (chunk (index_pool_of s0 (len d)) (_batch_size (self s))
              <$> range (ceil_div (len d) (_batch_size (self s)))).

(** [keeps I m Q]: the computation [m] preserves the invariant [I],
    whether it returns or raises, and a value it returns satisfies [Q]. *)
Definition keeps {A} (I : State -> Prop) (m : M A) (Q : A -> Prop) : Prop :=
  forall s, I s -> I (m s).2 /\ forall a, (m s).1 = Ok a -> Q a.

(** The state [s] has the attributes of [s0] and every object of the
    store of [s0], unchanged. *)
Definition frame (s0 s : State) : Prop :=
  self s = self s0 /\ objects (heap s0) ⊆ objects (heap s).

(** A reference that the store of [s0] does not hold. *)
Definition fresh_for (s0 : State) (l : loc) : Prop :=
  objects (heap s0) !! l = None.

(** The state [s] with the object [o] at the reference [l]. *)
Definition put (l : loc) (o : Object) (s : State) : State :=
  set_heap (MkStore (<[l := o]> (objects (heap s)))) s.

(** The state [s] after the data pack of the generator was sliced at
    [indices]: with the view as a new object. *)
Definition with_view (s : State) (indices : list Z) : State :=
  put (fresh (dom (objects (heap s))))
      (view_of (heap s) (_data_pack (self s)) indices) s.

(** The object at [l] was made after [s0] and has instances of its own
    in [s]. *)
Definition owned (s0 : State) (l : loc) (s : State) : Prop :=
  fresh_for s0 l /\ exists d, objects (heap s) !! l = Some (Rows d).

(** [triple P m Q E]: from a state in [P], the computation [m] returns a
    value and a state in [Q], or raises in a state in [E]. *)
Definition triple {A} (P : State -> Prop) (m : M A)
    (Q : A -> State -> Prop) (E : State -> Prop) : Prop :=
  forall s, P s ->
    match m s with
    | (Ok a, s') => Q a s'
    | (Raise _, s') => E s'
    end.

(** The data pack [d] with [func] applied to every left and every right
    text. *)
Definition transformed (func : Value -> Value) (d : DataPack) : DataPack :=
  (fun x => MkInstance (func (text_left x)) (func (text_right x)) (label x)) <$> d.

(** The batch that the materializer of class [cls] makes of the sliced
    instances [sl] when the random source is in state [g]. *)
Definition materialized (cls : GeneratorClass) (sl : DataPack) (g : Rng)
    : result Batch :=
  match cls with
  | DataGenerator => Ok (unpack_pack sl)
  | UnitDynamicDataGenerator (Some u) => Ok (unpack_pack (transformed (transform u) sl))
  | DynamicDataGenerator (Some func) => Ok (unpack_pack (transformed func sl))
  | DynamicDataGenerator None =>
      match sl with
      | [] => Ok (unpack_pack [])
      | _ :: _ => Raise TypeError
      end
  | OrigPairGeneratorUsingNewInterface num_neg num_dup =>
      Ok (unpack_pack (upsample sl num_dup num_neg g).1)
  | DataGeneratorFusion num_neg num_dup (Some u) =>
      Ok (unpack_pack (upsample (transformed (transform u) sl) num_dup num_neg g).1)
  | UnitDynamicDataGenerator None | DataGeneratorFusion _ _ None =>
      Raise AttributeError
  end.

(** The class has the unit, or the function, that its materializer asks
    for. *)
Definition has_unit (cls : GeneratorClass) : bool :=
  match cls with
  | UnitDynamicDataGenerator None | DataGeneratorFusion _ _ None
  | DynamicDataGenerator None => false
  | _ => true
  end.

(** The class was left with the default [unit=None]. *)
Definition unit_is_none (cls : GeneratorClass) : bool :=
  match cls with
  | UnitDynamicDataGenerator None | DataGeneratorFusion _ _ None => true
  | _ => false
  end.

(** The function that the materializer of the class applies to the
    texts, if it has one. *)
Definition transform_of (cls : GeneratorClass) : option (Value -> Value) :=
  match cls with
  | UnitDynamicDataGenerator (Some u) | DataGeneratorFusion _ _ (Some u) =>
      Some (transform u)
  | DynamicDataGenerator func => func
  | _ => None
  end.

(** ** More vocabulary *)

(** The state [s] with the generator's class replaced. *)
Definition set_class (cls : GeneratorClass) (s : State) : State :=
  MkState
    (MkAttrs cls (_data_pack (self s)) (_batch_size (self s))
             (_shuffle (self s)) (_batch_indices (self s)))
    (heap s) (rng s).


(** The partition table of [s] is cut from the identity order when the
    generator does not shuffle, and from a draw of the random source
    when it does. *)
Definition partitioned_by_flag (s : State) : Prop :=
  exists d g0,
    heap s !! _data_pack (self s) = Some d /\
    _batch_size (self s) <> 0 /\
    0 <= ceil_div (len d) (_batch_size (self s)) /\
    _batch_indices (self s)
    = Some (chunk (if _shuffle (self s) then (permutation (len d) g0).1
                   else range (len d))
                  (_batch_size (self s))
              <$> range (ceil_div (len d) (_batch_size (self s)))).

End Model.

Arguments Instance : clear implicits.
Arguments Features : clear implicits.
Arguments Unit : clear implicits.
Arguments GeneratorClass : clear implicits.
Arguments Attrs : clear implicits.
Arguments State : clear implicits.
Arguments Object : clear implicits.
Arguments Store : clear implicits.
Arguments M : clear implicits.

(** ** A concrete world to run the model in *)

Module Sample.

(** A random source whose draws are rotations of the identity order;
    its state counts the draws. *)
Definition rotations (n : Z) (g : nat) : list Z * nat :=
  (rotate (S g) (range n), S g).

(** An upsampling stub: every instance [num_dup] times, no negatives. *)
Definition duplicate (d : list (Instance Z bool)) (num_dup num_neg : Z)
    (g : nat) : list (Instance Z bool) * nat :=
  (mjoin (replicate (Z.to_nat num_dup) d), g).

(** A data pack of [n] instances, with recognisable texts. *)
Definition pack (n : Z) : list (Instance Z bool) :=
  (fun i => MkInstance (100 + i) (200 + i) (Z.even i)) <$> range n.

(** A store that holds a single data pack of [n] instances. *)
Definition store_of (n : Z) : Store Z bool :=
  MkStore {[ 1%positive := Rows (pack n) ]}.

Definition double : Unit Z := MkUnit (fun v => 2 * v).

(** The generator of scenario A: 10 instances, batches of 3, no
    shuffling. *)
Definition scenario_a (cls : GeneratorClass Z) : State Z bool nat :=
  (__init__ rotations cls 1%positive 3 false (store_of 10) 0%nat).2.

(** The same data, shuffled. *)
Definition shuffled (cls : GeneratorClass Z) : State Z bool nat :=
  (__init__ rotations cls 1%positive 3 true (store_of 10) 0%nat).2.

(** A generator over an empty data pack. *)
Definition empty_generator : State Z bool nat :=
  (__init__ rotations DataGenerator 1%positive 3 false (store_of 0) 0%nat).2.

(** The generator of scenario A over the data pack whose texts were
    doubled beforehand. *)
Definition doubled_beforehand (cls : GeneratorClass Z) : State Z bool nat :=
  (__init__ rotations cls 1%positive 3 false
     (MkStore {[ 1%positive := Rows (transformed (transform double) (pack 10)) ]})
     0%nat).2.

End Sample.

(** ** The model at work *)

Example getitem_neg : getitem [10; 20; 30] (-1) = Ok 30.
Proof. reflexivity. Qed.

Example getslice_rev :
  getslice [10; 20; 30; 40] (Slice None None (Some (-2))) = Ok [40; 20].
Proof. reflexivity. Qed.

Example getslice_clip :
  getslice [10; 20; 30; 40] (Slice (Some 3) (Some 6) None) = Ok [40].
Proof. reflexivity. Qed.

Example ceil_div_neg : ceil_div 2 (-5) = 0 /\ ceil_div 10 3 = 4 /\ ceil_div 10 (-3) = -3.
Proof. repeat split. Qed.

Example scenario_a_table :
  _batch_indices (self (Sample.scenario_a DataGenerator))
  = Some [[0; 1; 2]; [3; 4; 5]; [6; 7; 8]; [9]].
Proof. reflexivity. Qed.

Example shuffled_table :
  _batch_indices (self (Sample.shuffled DataGenerator))
  = Some [[1; 2; 3]; [4; 5; 6]; [7; 8; 9]; [0]].
Proof. reflexivity. Qed.

Example plain_batch :
  (__getitem__ Sample.duplicate (Index 3) (Sample.scenario_a DataGenerator)).1
  = Ok (MkFeatures [109] [209], [false]).
Proof. reflexivity. Qed.

Example fusion_batch :
  (__getitem__ Sample.duplicate (Index (-1))
     (Sample.scenario_a (DataGeneratorFusion 1 2 (Some Sample.double)))).1
  = Ok (MkFeatures [218; 218] [418; 418], [false; false]).
Proof. reflexivity. Qed.

(** A slice is a view: columns written to it reach the data pack. *)
Example view_write_reaches_dataset :
  heap (bind (DataPack_getitem 1%positive [9])
             (fun view => transform_columns view (Some (transform Sample.double)))
             (Sample.scenario_a DataGenerator)).2 !! 1%positive
  = Some (<[9%nat := MkInstance 218 418 false]> (Sample.pack 10)).
Proof. reflexivity. Qed.

(** Columns written to the copy of a view stay in the copy. *)
Example copy_write_keeps_dataset :
  heap (bind (DataPack_getitem 1%positive [9])
             (fun view => bind (DataPack_copy view)
             (fun dp => transform_columns dp (Some (transform Sample.double))))
             (Sample.scenario_a DataGenerator)).2 !! 1%positive
  = Some (Sample.pack 10).
Proof. reflexivity. Qed.

(** [DynamicDataGenerator] with the default [func=None]. *)
Example dynamic_without_function :
  (__getitem__ Sample.duplicate (Index 0)
     (Sample.scenario_a (DynamicDataGenerator None))).1
  = Raise TypeError.
Proof. reflexivity. Qed.

(** ** Facts about the Python values *)

Section PyFacts.
Context {A : Type}.
Implicit Types (l : list A) (n i : Z).

Lemma len_nonneg l : 0 <= len l.
Proof. unfold len. lia. Qed.

Lemma sum_lists_concat (ls : list (list A)) : sum_lists ls = concat ls.
Proof.
  unfold sum_lists.
  assert (H : forall acc, fold_left (fun acc l => acc ++ l) ls acc = acc ++ concat ls).
  { induction ls as [|x ls IH]; intros acc; simpl.
    - by rewrite app_nil_r.
    - by rewrite IH, app_assoc. }
  apply H.
Qed.

Lemma omap_lookup_run l (start : Z) (j m : nat) :
  0 <= start ->
  (Z.to_nat start + j + m <= length l)%nat ->
  omap (fun p : Z => l !! Z.to_nat p)
       ((fun k : nat => start + Z.of_nat k * 1) <$> seq j m)
  = take m (drop (Z.to_nat start + j) l).
Proof.
  intros Hs. revert j. induction m as [|m IH]; intros j Hle; simpl.
  - by rewrite take_0.
  - destruct (lookup_lt_is_Some_2 l (Z.to_nat start + j)) as [x Hx]; [lia|].
    replace (Z.to_nat (start + Z.of_nat j * 1)) with (Z.to_nat start + j)%nat by lia.
    rewrite Hx. rewrite (drop_S _ _ _ Hx). simpl. f_equal.
    rewrite IH by lia. f_equal. f_equal. lia.
Qed.

Lemma getslice_simple l (lower upper : Z) :
  0 <= lower <= upper ->
  getslice l (Slice (Some lower) (Some upper) None)
  = Ok (take (Z.to_nat (upper - lower)) (drop (Z.to_nat lower) l)).
Proof.
  intros H. unfold getslice, slice_positions, indices. simpl.
  f_equal. unfold positions, slicelength, adjust, len. simpl.
  destruct (Z.ltb_spec lower 0); [lia|].
  destruct (Z.ltb_spec upper 0); [lia|].
  destruct (Z.leb_spec (Z.of_nat (length l)) lower) as [Hl|Hl].
  - (* the slice starts at or after the end *)
    rewrite drop_ge, take_nil by lia.
    destruct (Z.leb_spec (Z.of_nat (length l)) upper); [|lia].
    destruct (Z.ltb_spec (Z.of_nat (length l)) (Z.of_nat (length l))); [lia|done].
  - destruct (Z.leb_spec (Z.of_nat (length l)) upper) as [Hu|Hu].
    + destruct (Z.ltb_spec lower (Z.of_nat (length l))); [|lia].
      rewrite Z.div_1_r.
      rewrite (omap_lookup_run l lower 0) by lia.
      rewrite Nat.add_0_r.
      rewrite !take_ge; [done| |]; rewrite length_drop; lia.
    + destruct (Z.ltb_spec lower upper).
      * rewrite Z.div_1_r.
        rewrite (omap_lookup_run l lower 0) by lia.
        rewrite Nat.add_0_r. f_equal. lia.
      * replace (Z.to_nat (upper - lower)) with 0%nat by lia. by rewrite take_0.
Qed.

Lemma getitem_out_of_range l i :
  len l <= i \/ i < - len l -> getitem l i = Raise IndexError.
Proof.
  intros Hi. unfold getitem. pose proof (len_nonneg l).
  destruct (Z.ltb_spec i 0);
    [destruct (Z.leb_spec 0 (i + len l)); [lia|done]|].
  destruct (Z.leb_spec 0 i); [|done].
  destruct (Z.ltb_spec i (len l)); [lia|done].
Qed.

Lemma getitem_nonneg l i x :
  0 <= i -> l !! Z.to_nat i = Some x -> getitem l i = Ok x.
Proof.
  intros Hi Hx. unfold getitem.
  pose proof (lookup_lt_Some _ _ _ Hx) as Hlt. unfold len.
  destruct (Z.ltb_spec i 0); [lia|].
  destruct (Z.leb_spec 0 i); [|lia].
  destruct (Z.ltb_spec i (Z.of_nat (length l))); [|lia]. simpl. by rewrite Hx.
Qed.

Lemma getitem_negative l i :
  - len l <= i < 0 -> getitem l i = getitem l (len l + i).
Proof.
  intros Hi. unfold getitem.
  destruct (Z.ltb_spec i 0); [|lia].
  destruct (Z.ltb_spec (len l + i) 0); [lia|].
  by rewrite (Z.add_comm i).
Qed.

Lemma getitem_in_range l i :
  0 <= i < len l -> exists x, l !! Z.to_nat i = Some x /\ getitem l i = Ok x.
Proof.
  intros Hi. unfold len in Hi.
  destruct (lookup_lt_is_Some_2 l (Z.to_nat i)) as [x Hx]; [lia|].
  exists x. split; [done|]. apply getitem_nonneg; [lia|done].
Qed.

Lemma getitem_IndexError l i :
  getitem l i = Raise IndexError <-> len l <= i \/ i < - len l.
Proof.
  split; [|apply getitem_out_of_range].
  intros Hr. destruct (decide (len l <= i \/ i < - len l)) as [|Hin]; [done|].
  destruct (decide (i < 0)).
  - rewrite getitem_negative in Hr by lia.
    destruct (getitem_in_range l (len l + i)) as (x & _ & Hx); [lia|congruence].
  - destruct (getitem_in_range l i) as (x & _ & Hx); [lia|congruence].
Qed.

Lemma omap_lookup_Forall2 l (ps : list Z) :
  Forall (fun p => 0 <= p < len l) ps ->
  Forall2 (fun p x => l !! Z.to_nat p = Some x)
          ps (omap (fun p : Z => l !! Z.to_nat p) ps).
Proof.
  induction 1 as [|p ps Hp _ IH]; [constructor|]. simpl.
  unfold len in Hp.
  destruct (lookup_lt_is_Some_2 l (Z.to_nat p)) as [x Hx]; [lia|].
  rewrite Hx. by constructor.
Qed.

End PyFacts.

Lemma ceil_div_spec (a b : Z) :
  0 < b -> (ceil_div a b - 1) * b < a <= ceil_div a b * b.
Proof.
  intros Hb. unfold ceil_div.
  pose proof (Z.div_mod (- a) b) as Hdm.
  pose proof (Z.mod_pos_bound (- a) b Hb) as Hm.
  nia.
Qed.

Lemma ceil_div_unique (a b q : Z) :
  0 < b -> (q - 1) * b < a <= q * b -> ceil_div a b = q.
Proof.
  intros Hb Hq. pose proof (ceil_div_spec a b Hb). nia.
Qed.

Lemma ceil_div_neg_divisor (a b : Z) :
  0 <= a -> b < 0 ->
  ceil_div a b <= 0 /\ (ceil_div a b < 0 <-> - b <= a).
Proof.
  intros Ha Hb. unfold ceil_div.
  pose proof (Z.div_mod (- a) b) as Hdm.
  pose proof (Z.mod_neg_bound (- a) b Hb) as Hm.
  split; [nia|split; nia].
Qed.

Lemma ceil_div_pos_divisor (a b : Z) :
  0 <= a -> 0 < ceil_div a b -> 0 < b.
Proof.
  intros Ha Hc. destruct (Z.lt_trichotomy b 0) as [Hb|[->|Hb]]; [|  |done].
  - pose proof (ceil_div_neg_divisor a b Ha Hb). lia.
  - unfold ceil_div in Hc. rewrite Z.div_0_r in Hc. lia.
Qed.

Section SliceFacts.

Lemma indices_step (s : slice) n start stop step :
  indices s n = Ok (start, stop, step) ->
  step = default 1 (slice_step s) /\ step <> 0.
Proof.
  unfold indices. destruct (Z.eqb_spec (default 1 (slice_step s)) 0); [done|].
  intros [= _ _ <-]. done.
Qed.

Lemma adjust_bounds n step v :
  0 <= n ->
  (0 < step -> 0 <= adjust n step v <= n) /\
  (step < 0 -> -1 <= adjust n step v <= n - 1).
Proof.
  intros Hn. unfold adjust.
  repeat match goal with
    | |- context [ ?a <? ?b ] => destruct (Z.ltb_spec a b)
    | |- context [ ?a <=? ?b ] => destruct (Z.leb_spec a b)
    end; lia.
Qed.

Lemma positions_elem start stop step p :
  p ∈ positions start stop step <->
  exists k : Z, 0 <= k < slicelength start stop step /\ p = start + k * step.
Proof.
  unfold positions. rewrite list_elem_of_fmap. split.
  - intros (k & -> & Hk%elem_of_seq). exists (Z.of_nat k). split; [lia|done].
  - intros (k & Hk & ->). exists (Z.to_nat k). split.
    + by rewrite Z2Nat.id by lia.
    + apply elem_of_seq. lia.
Qed.

Lemma slicelength_up start stop step k :
  0 < step -> 0 <= k < slicelength start stop step ->
  start <= start + k * step < stop.
Proof.
  intros Hs. unfold slicelength.
  destruct (Z.ltb_spec step 0); [lia|].
  destruct (Z.ltb_spec start stop); [|lia].
  intros Hk.
  pose proof (Z.mul_div_le (stop - start - 1) step Hs) as Hq.
  assert (k * step <= (stop - start - 1) `div` step * step)
    by (apply Z.mul_le_mono_nonneg_r; lia).
  nia.
Qed.

Lemma slicelength_down start stop step k :
  step < 0 -> 0 <= k < slicelength start stop step ->
  stop < start + k * step <= start.
Proof.
  intros Hs. unfold slicelength.
  destruct (Z.ltb_spec step 0); [|lia].
  destruct (Z.ltb_spec stop start); [|lia].
  assert (Hs' : 0 < - step) by lia.
  intros Hk.
  pose proof (Z.mul_div_le (start - stop - 1) (- step) Hs') as Hq.
  assert (k * (- step) <= (start - stop - 1) `div` (- step) * (- step))
    by (apply Z.mul_le_mono_nonneg_r; lia).
  nia.
Qed.

(** Every position that a slice selects is a position of the list. *)
Lemma slice_positions_bounds (s : slice) n ps :
  0 <= n -> slice_positions s n = Ok ps -> Forall (fun p => 0 <= p < n) ps.
Proof.
  intros Hn. unfold slice_positions.
  destruct (indices s n) as [[[start stop] step]|] eqn:Hi; [|done].
  intros [= <-]. destruct (indices_step _ _ _ _ _ Hi) as [Hstep Hne].
  apply Forall_forall. intros p (k & Hk & ->)%positions_elem.
  unfold indices in Hi. rewrite <- Hstep in Hi.
  destruct (Z.eqb_spec step 0); [done|]. injection Hi as Hstart Hstop.
  destruct (Z.lt_trichotomy step 0) as [Hs|[Hs|Hs]]; [|done|].
  - pose proof (slicelength_down _ _ _ _ Hs Hk) as Hb.
    destruct (Z.ltb_spec step 0); [|lia].
    assert (-1 <= stop /\ start <= n - 1); [|lia].
    split.
    + destruct (slice_stop s); [|lia]. subst stop. by apply adjust_bounds.
    + destruct (slice_start s); [|lia]. subst start. by apply adjust_bounds.
  - pose proof (slicelength_up _ _ _ _ Hs Hk) as Hb.
    destruct (Z.ltb_spec step 0); [lia|].
    assert (0 <= start /\ stop <= n); [|lia].
    split.
    + destruct (slice_start s); [|lia]. subst start. by apply adjust_bounds.
    + destruct (slice_stop s); [|lia]. subst stop. by apply adjust_bounds.
Qed.

Lemma fmap_seq_StronglySorted (R : relation Z) (f : nat -> Z) (a m : nat) :
  (forall i j : nat, (i < j)%nat -> R (f i) (f j)) ->
  StronglySorted R (f <$> seq a m).
Proof.
  intros Hf. revert a. induction m as [|m IH]; intros a; simpl; constructor.
  - apply IH.
  - apply Forall_fmap, Forall_seq. intros j Hj. apply Hf. lia.
Qed.

(** A slice with a positive step lists its positions in ascending
    order, one with a negative step in descending order. *)
Lemma positions_ascending start stop step :
  0 < step -> StronglySorted Z.le (positions start stop step).
Proof.
  intros Hs. apply fmap_seq_StronglySorted. intros i j Hij. nia.
Qed.

Lemma positions_descending start stop step :
  step < 0 -> StronglySorted Z.ge (positions start stop step).
Proof.
  intros Hs. apply fmap_seq_StronglySorted. intros i j Hij. nia.
Qed.

Lemma merge_sort_ascending (ps : list Z) :
  StronglySorted Z.le ps -> merge_sort Z.le ps = ps.
Proof.
  intros Hps. apply (StronglySorted_unique Z.le); [|done|].
  - apply StronglySorted_merge_sort; apply _.
  - apply merge_sort_Permutation.
Qed.

End SliceFacts.

(** ** The partition that [_set_indices] builds *)

Section Chunks.
Implicit Types (pool : list Z) (bs : Z).



Lemma range_nonpos n : n <= 0 -> range n = [].
Proof. intros. unfold range, seqZ. by replace (Z.to_nat n) with 0%nat by lia. Qed.



Lemma length_chunks pool bs B : len (chunk pool bs <$> range B) = Z.max 0 B.
Proof. unfold len, range. rewrite length_fmap, length_seqZ. lia. Qed.

Lemma lookup_chunks pool bs B (i : Z) :
  0 <= i < B ->
  (chunk pool bs <$> range B) !! Z.to_nat i = Some (chunk pool bs i).
Proof.
  intros Hi. rewrite list_lookup_fmap. unfold range.
  rewrite (lookup_seqZ_lt 0 B (Z.to_nat i)) by lia. simpl. f_equal. f_equal. lia.
Qed.


End Chunks.

(** ** Running the generator's methods *)

Section Facts.

Context {Value Label Rng : Type}.
Variable permutation : Z -> Rng -> list Z * Rng.
Variable upsample :
  list (Instance Value Label) -> Z -> Z -> Rng -> list (Instance Value Label) * Rng.

Implicit Types (s : State Value Label Rng) (d : list (Instance Value Label)).
Implicit Types (table : list (list Z)) (item : Item).
Implicit Types (I : State Value Label Rng -> Prop).

Local Abbreviation index_pool_of := (index_pool_of permutation).
Local Abbreviation after_draw := (after_draw permutation).
Local Abbreviation partitioned := (partitioned permutation).
Local Abbreviation materialized := (materialized upsample).
Local Abbreviation run_calls := (run_calls permutation upsample).
Local Abbreviation run_call := (run_call permutation upsample).
Local Abbreviation reachable := (reachable permutation upsample).

Lemma for_each_append (pool : list Z) (bs : Z) (xs : list Z) s table :
  0 < bs -> Forall (fun i => 0 <= i) xs ->
  _batch_indices (self s) = Some table ->
  for_each xs (fun i =>
    bind (lift (getslice pool (Slice (Some (bs * i)) (Some (bs * (i + 1))) None)))
         (fun c => append_batch c)) s
  = (Ok tt, set_batch_indices (Some (table ++ (chunk pool bs <$> xs))) s).
Proof.
  intros Hbs Hxs. revert s table.
  induction Hxs as [|i xs Hi _ IH]; intros s table Ht; simpl.
  - rewrite app_nil_r. unfold ret. f_equal.
    destruct s as [[] ? ?]. simpl in *. by subst.
  - unfold bind at 1. unfold bind at 1. unfold lift.
    rewrite getslice_simple by nia.
    unfold append_batch, bind, gets. rewrite Ht. unfold modify.
    erewrite IH by reflexivity. f_equal. unfold set_batch_indices. simpl.
    rewrite <- app_assoc. simpl. unfold chunk at 2.
    by replace (bs * (i + 1) - bs * i) with bs by lia.
Qed.

(** What [_set_indices] does, in closed form. *)
Lemma set_indices_run s d :
  heap s !! _data_pack (self s) = Some d ->
  _set_indices permutation s =
    let bs := _batch_size (self s) in
    let s1 := after_draw s (len d) in
    if bs =? 0 then (Raise ZeroDivisionError, set_batch_indices (Some []) s1)
    else if ceil_div (len d) bs <? 0 then
      (Raise ValueError, set_batch_indices (Some []) s1)
    else
      (Ok tt,
       set_batch_indices
         (Some (chunk (index_pool_of s (len d)) bs <$> range (ceil_div (len d) bs))) s1).
Proof.
  intros Hd. unfold _set_indices.
  unfold bind at 1. unfold gets at 1.
  unfold bind at 1. unfold DataPack_len, bind at 1, load. rewrite Hd. unfold ret at 1.
  unfold bind at 1.
  assert (Hdraw :
    (if _shuffle (self s) then np_random_permutation permutation (len d)
     else ret (range (len d))) s = (Ok (index_pool_of s (len d)), after_draw s (len d))).
  { unfold index_pool_of, after_draw. by destruct (_shuffle (self s)). }
  rewrite Hdraw. clear Hdraw.
  assert (Hheap : heap (after_draw s (len d)) = heap s)
    by (unfold after_draw; by destruct (_shuffle (self s))).
  assert (Hself : self (after_draw s (len d)) = self s)
    by (unfold after_draw; by destruct (_shuffle (self s))).
  unfold bind at 1, modify at 1.
  unfold bind at 1, len_self, bind at 1, __len__.
  unfold bind at 1, gets at 1. unfold bind at 1, DataPack_len, bind at 1, load.
  simpl. rewrite Hheap, Hself, Hd. unfold ret at 1. simpl.
  destruct (Z.eqb_spec (_batch_size (self s)) 0) as [Hz|Hz]; [done|].
  unfold ret at 1.
  destruct (Z.ltb_spec (ceil_div (len d) (_batch_size (self s))) 0) as [Hc|Hc]; [done|].
  unfold ret at 1.
  destruct (decide (ceil_div (len d) (_batch_size (self s)) = 0)) as [->|Hpos].
  - simpl. unfold ret. done.
  - rewrite (for_each_append _ _ _ _ []); [done| | |done].
    + apply (ceil_div_pos_divisor (len d)); [apply len_nonneg|lia].
    + apply Forall_seqZ. lia.
Qed.



Section Shuffled.

(** [np.random.permutation(n)] is a permutation of [range(n)]. *)
Hypothesis permutation_spec :
  forall n g, 0 <= n -> (permutation n g).1 ≡ₚ range n.

Lemma index_pool_Permutation s n : 0 <= n -> index_pool_of s n ≡ₚ range n.
Proof.
  intros Hn. unfold index_pool_of. destruct (_shuffle (self s)); [|done].
  by apply permutation_spec.
Qed.



End Shuffled.


(** C6, as the code has it.  The constructor does not check the batch
    size.  With a batch size of 0 construction fails with the
    ZeroDivisionError of [__len__]; with a negative batch size it fails
    with a ValueError (a negative length) when N >= -batch_size, and
    otherwise succeeds with an empty partition table. *)
Theorem construction_without_positive_batch_size
    (cls : GeneratorClass Value) (dp : loc) (bs : Z) (sh : bool)
    (h : Store Value Label) (g : Rng) d :
  h !! dp = Some d -> bs < 1 ->
  let r := __init__ permutation cls dp bs sh h g in
  (bs = 0 -> r.1 = Raise ZeroDivisionError) /\
  (bs < 0 -> - bs <= len d -> r.1 = Raise ValueError) /\
  (bs < 0 -> len d < - bs ->
     r.1 = Ok tt /\ _batch_indices (self r.2) = Some []).
Proof.
  intros Hd Hbs r. subst r. unfold __init__.
  rewrite (set_indices_run _ d) by done. cbv zeta. simpl.
  pose proof (len_nonneg d) as HN.
  split; [|split].
  - intros ->. done.
  - intros Hneg Hle. destruct (Z.eqb_spec bs 0); [lia|].
    destruct (ceil_div_neg_divisor (len d) bs HN Hneg) as [_ Hiff].
    destruct (Z.ltb_spec (ceil_div (len d) bs) 0); [done|]. lia.
  - intros Hneg Hlt. destruct (Z.eqb_spec bs 0); [lia|].
    destruct (ceil_div_neg_divisor (len d) bs HN Hneg) as [Hle Hiff].
    destruct (Z.ltb_spec (ceil_div (len d) bs) 0); [lia|].
    replace (ceil_div (len d) bs) with 0 by lia. done.
Qed.

(** *** Invariants of computations *)

Lemma keeps_weaken {A} I (m : M Value Label Rng A) (Q R : A -> Prop) :
  (forall a, Q a -> R a) -> keeps I m Q -> keeps I m R.
Proof. intros HQR Hm s Hs. destruct (Hm s Hs). naive_solver. Qed.






Lemma frame_refl s : frame s s.
Proof. by split. Qed.

Lemma lookup_Store (st : Store Value Label) l : st !! l = rows_of st l.
Proof. done. Qed.

(** An object that is kept with its base shows the same instances. *)
Lemma objects_subseteq_lookup (st st' : Store Value Label) l d :
  objects st ⊆ objects st' -> st !! l = Some d -> st' !! l = Some d.
Proof.
  intros Hsub. rewrite !lookup_Store. unfold rows_of.
  destruct (objects st !! l) as [[d0|base ps]|] eqn:Hl; [| |done].
  - by rewrite (lookup_weaken _ _ _ _ Hl Hsub).
  - rewrite (lookup_weaken _ _ _ _ Hl Hsub).
    destruct (objects st !! base) as [[b|? ?]|] eqn:Hb; [|done|done].
    by rewrite (lookup_weaken _ _ _ _ Hb Hsub).
Qed.

Lemma objects_subseteq_Store (st st' : Store Value Label) :
  objects st ⊆ objects st' -> st ⊆ st'.
Proof. intros Hsub l d. by apply objects_subseteq_lookup. Qed.

Lemma frame_lookup s0 s l d :
  frame s0 s -> heap s0 !! l = Some d -> heap s !! l = Some d.
Proof. intros [_ Hsub]. by apply objects_subseteq_lookup. Qed.

(** *** Triples *)

Lemma triple_conseq {A} (P P' : State Value Label Rng -> Prop)
    (m : M Value Label Rng A) (Q Q' : A -> State Value Label Rng -> Prop)
    (E E' : State Value Label Rng -> Prop) :
  (forall s, P' s -> P s) -> (forall a s, Q a s -> Q' a s) ->
  (forall s, E s -> E' s) ->
  triple P m Q E -> triple P' m Q' E'.
Proof.
  intros HP HQ HE Hm s Hs. specialize (Hm s (HP s Hs)).
  destruct (m s) as [[a|e] s']; auto.
Qed.

Lemma triple_bind {A B} (P : State Value Label Rng -> Prop)
    (m : M Value Label Rng A) (k : A -> M Value Label Rng B)
    (Q : A -> State Value Label Rng -> Prop)
    (R : B -> State Value Label Rng -> Prop) E :
  triple P m Q E -> (forall a, triple (Q a) (k a) R E) -> triple P (bind m k) R E.
Proof.
  intros Hm Hk s Hs. unfold bind. specialize (Hm s Hs).
  destruct (m s) as [[a|e] s']; [by apply Hk|done].
Qed.

(** A computation that leaves the state alone. *)
Lemma triple_read {A} (P E : State Value Label Rng -> Prop)
    (m : M Value Label Rng A) :
  (forall s, (m s).2 = s) -> (forall s, P s -> E s) ->
  triple P m (fun _ s => P s) E.
Proof.
  intros Hm HE s Hs. specialize (Hm s).
  destruct (m s) as [[a|e] s']; simpl in Hm; rewrite Hm; auto.
Qed.

Lemma load_state (r : loc) s : (load r s).2 = s.
Proof. unfold load. by destruct (heap s !! r). Qed.

Lemma lift_state {A} (r : result A) s : (lift r s).2 = s.
Proof. done. Qed.

Lemma gets_state {A} (f : State Value Label Rng -> A) s : (gets f s).2 = s.
Proof. done. Qed.

Lemma get_text_state (col : Instance Value Label -> Value) (l : loc) s :
  (bind (load l) (fun d => ret (col <$> d)) s).2 = s.
Proof. unfold bind, load. by destruct (heap s !! l). Qed.

Lemma unpack_state (l : loc) s : (unpack l s).2 = s.
Proof. unfold unpack, bind, load. by destruct (heap s !! l). Qed.

Lemma unit_transform_state (u : option (Unit Value)) s : (unit_transform u s).2 = s.
Proof. by destruct u. Qed.

(** *** What a batch request leaves in place *)

Lemma frame_fresh s0 s :
  frame s0 s -> fresh_for s0 (fresh (dom (objects (heap s)))).
Proof.
  intros [_ Hsub]. unfold fresh_for.
  eapply lookup_weaken_None; [|done]. apply not_elem_of_dom, is_fresh.
Qed.

Lemma frame_insert_fresh s0 s l o :
  frame s0 s -> fresh_for s0 l ->
  frame s0 (set_heap (MkStore (<[l := o]> (objects (heap s)))) s).
Proof. intros [Hself Hsub] Hl. split; [done|]. simpl. by apply insert_subseteq_r. Qed.

(** A new object: the frame stays, the reference is new to [s0]. *)
Lemma triple_alloc_object s0 (o : Object Value Label) :
  triple (frame s0) (alloc_object o)
    (fun l s => frame s0 s /\ fresh_for s0 l /\ objects (heap s) !! l = Some o)
    (frame s0).
Proof.
  intros s Hs. unfold alloc_object.
  pose proof (frame_fresh s0 s Hs) as Hl.
  split; [by apply frame_insert_fresh|]. split; [done|].
  simpl. apply lookup_insert_eq.
Qed.

Lemma triple_alloc s0 d :
  triple (frame s0) (alloc d)
    (fun l s => frame s0 s /\ owned s0 l s) (frame s0).
Proof.
  eapply triple_conseq; [| | |apply (triple_alloc_object s0 (Rows d))]; try done.
  intros l s (Hfr & Hl & Ho). split; [done|]. split; [done|]. by exists d.
Qed.

(** A write to an object with instances of its own that was made after
    [s0]: the frame stays, and the object is as before its own. *)
Lemma triple_store s0 l d :
  triple (fun s => frame s0 s /\ owned s0 l s) (store l d)
    (fun _ s => frame s0 s /\ owned s0 l s) (frame s0).
Proof.
  intros s (Hfr & Hl & d0 & Hd0). unfold store. rewrite Hd0.
  split; [by apply frame_insert_fresh|]. split; [done|].
  exists d. simpl. apply lookup_insert_eq.
Qed.

Lemma triple_DataPack_getitem s0 r idx :
  triple (frame s0) (DataPack_getitem r idx) (fun _ s => frame s0 s) (frame s0).
Proof.
  unfold DataPack_getitem.
  eapply triple_bind; [apply triple_read; [apply load_state|done]|]. intros d.
  eapply triple_bind; [apply triple_read; [apply lift_state|done]|]. intros ?.
  eapply triple_bind; [apply triple_read; [apply gets_state|done]|]. intros view.
  eapply triple_conseq; [| | |apply triple_alloc_object]; try done.
  by intros l s (Hfr & _).
Qed.

Lemma triple_DataPack_copy s0 r :
  triple (frame s0) (DataPack_copy r)
    (fun l s => frame s0 s /\ owned s0 l s) (frame s0).
Proof.
  unfold DataPack_copy.
  eapply triple_bind; [apply triple_read; [apply load_state|done]|]. intros d.
  apply triple_alloc.
Qed.

Lemma triple_call_upsample s0 r nd nn :
  triple (frame s0) (call_upsample upsample r nd nn)
    (fun _ s => frame s0 s) (frame s0).
Proof.
  unfold call_upsample.
  eapply triple_bind; [apply triple_read; [apply load_state|done]|]. intros d.
  eapply triple_bind; [apply triple_read; [apply gets_state|done]|]. intros g.
  eapply (triple_bind _ _ _ (fun _ s => frame s0 s)).
  { intros s Hs. by simpl. }
  intros ?. eapply triple_conseq; [| | |apply triple_alloc]; try done.
  by intros l s (Hfr & _).
Qed.

Lemma triple_set_text s0 l
    (upd : list (Instance Value Label) -> list (Instance Value Label)) :
  triple (fun s => frame s0 s /\ owned s0 l s)
    (bind (load l) (fun d => store l (upd d)))
    (fun _ s => frame s0 s /\ owned s0 l s) (frame s0).
Proof.
  eapply triple_bind;
    [apply triple_read; [apply load_state|by intros s (? & ?)]|].
  intros d. apply triple_store.
Qed.

(** The transform of the columns of an object with instances of its
    own writes to that object only. *)
Lemma triple_transform_columns s0 l func :
  triple (fun s => frame s0 s /\ owned s0 l s) (transform_columns l func)
    (fun _ s => frame s0 s /\ owned s0 l s) (frame s0).
Proof.
  unfold transform_columns.
  eapply triple_bind;
    [apply triple_read; [apply get_text_state|by intros s (? & ?)]|].
  intros left.
  eapply triple_bind;
    [apply triple_read; [apply lift_state|by intros s (? & ?)]|].
  intros left'.
  eapply triple_bind; [apply triple_set_text|]. intros ?.
  eapply triple_bind;
    [apply triple_read; [apply get_text_state|by intros s (? & ?)]|].
  intros right.
  eapply triple_bind;
    [apply triple_read; [apply lift_state|by intros s (? & ?)]|].
  intros right'. apply triple_set_text.
Qed.

Lemma triple_unpack (P : State Value Label Rng -> Prop) E l :
  (forall s, P s -> E s) -> triple P (unpack l) (fun _ s => E s) E.
Proof.
  intros HE.
  eapply triple_conseq;
    [| | |apply (triple_read P E); [apply unpack_state|exact HE]].
  - by intros s Hs.
  - intros ? s Hs. by apply HE.
  - by intros s Hs.
Qed.

Lemma triple_get_batch s0 idx :
  triple (frame s0) (_get_batch_of_transformed_samples upsample idx)
    (fun _ s => frame s0 s) (frame s0).
Proof.
  unfold _get_batch_of_transformed_samples.
  eapply triple_bind; [apply triple_read; [apply gets_state|done]|]. intros me.
  destruct (class_of me).
  - eapply triple_bind; [apply triple_DataPack_getitem|]. intros sl.
    by apply triple_unpack.
  - eapply triple_bind; [apply triple_DataPack_getitem|]. intros sl.
    eapply triple_bind; [apply triple_DataPack_copy|]. intros dp.
    eapply triple_bind;
      [apply triple_read; [apply unit_transform_state|by intros s (? & ?)]|].
    intros func.
    eapply triple_bind; [apply triple_transform_columns|]. intros ?.
    apply triple_unpack. by intros s (? & ?).
  - eapply triple_bind; [apply triple_DataPack_getitem|]. intros sl.
    eapply triple_bind; [apply triple_DataPack_copy|]. intros dp.
    eapply triple_bind; [apply triple_transform_columns|]. intros ?.
    apply triple_unpack. by intros s (? & ?).
  - eapply triple_bind; [apply triple_DataPack_getitem|]. intros sl.
    eapply triple_bind; [apply triple_call_upsample|]. intros up.
    by apply triple_unpack.
  - eapply triple_bind; [apply triple_DataPack_getitem|]. intros sl.
    eapply triple_bind; [apply triple_DataPack_copy|]. intros dp.
    eapply triple_bind;
      [apply triple_read; [apply unit_transform_state|by intros s (? & ?)]|].
    intros func.
    eapply triple_bind; [apply triple_transform_columns|]. intros ?.
    eapply triple_bind.
    { eapply triple_conseq; [| | |apply triple_call_upsample]; try done.
      by intros s (? & ?). }
    intros up. by apply triple_unpack.
Qed.

Lemma keeps_get_batch s0 idx :
  keeps (frame s0) (_get_batch_of_transformed_samples upsample idx) (fun _ => True).
Proof.
  intros s Hs. pose proof (triple_get_batch s0 idx s Hs) as Ht.
  by destruct (_get_batch_of_transformed_samples upsample idx s) as [[a|e] s'].
Qed.

Lemma item_indices_state item s : (item_indices item s).2 = s.
Proof.
  unfold item_indices, bind, gets, raise, lift, ret.
  destruct (_batch_indices (self s)); [|done].
  destruct item; [done|]. simpl. by destruct (getslice _ _).
Qed.

Lemma getitem_frame item s : frame s (__getitem__ upsample item s).2.
Proof.
  unfold __getitem__, bind.
  pose proof (item_indices_state item s) as Hst.
  destruct (item_indices item s) as [[idx|e] s']; simpl in Hst; subst s'.
  - apply (keeps_get_batch s idx s), frame_refl.
  - apply frame_refl.
Qed.

Lemma get_batch_dangling idx s :
  heap s !! _data_pack (self s) = None ->
  (_get_batch_of_transformed_samples upsample idx s).2 = s.
Proof.
  intros Hd. unfold _get_batch_of_transformed_samples, bind at 1, gets.
  destruct (class_of (self s));
    unfold bind at 1, DataPack_getitem, bind at 1, load; by rewrite Hd.
Qed.

(** *** What a materializer returns *)

Lemma zip_with_fmap_self {A B C} (f : B -> A -> C) (h : A -> B) (l : list A) :
  zip_with f (h <$> l) l = (fun x => f (h x) x) <$> l.
Proof. induction l as [|x l IH]; [done|]. csimpl. by f_equal. Qed.

Lemma load_run s r d : heap s !! r = Some d -> load r s = (Ok d, s).
Proof. intros H. unfold load. by rewrite H. Qed.

Lemma lookup_rows (st : Store Value Label) l d :
  objects st !! l = Some (Rows d) -> st !! l = Some d.
Proof. intros Hl. rewrite lookup_Store. unfold rows_of. by rewrite Hl. Qed.

Lemma lookup_put_rows s l d : heap (put l (Rows d) s) !! l = Some d.
Proof. apply lookup_rows. simpl. apply lookup_insert_eq. Qed.

Lemma put_put s l (o o' : Object Value Label) : put l o' (put l o s) = put l o' s.
Proof. unfold put, set_heap. simpl. by rewrite insert_insert_eq. Qed.

Lemma fresh_object s : objects (heap s) !! fresh (dom (objects (heap s))) = None.
Proof. apply not_elem_of_dom, is_fresh. Qed.

(** A new object leaves what the others show. *)
Lemma lookup_put_fresh s l (o : Object Value Label) l' d :
  objects (heap s) !! l = None ->
  heap s !! l' = Some d -> heap (put l o s) !! l' = Some d.
Proof.
  intros Hl. apply objects_subseteq_lookup. simpl. by apply insert_subseteq.
Qed.

Lemma slice_by_indices_Forall2 d idx sl :
  slice_by_indices d idx = Ok sl ->
  Forall2 (fun i x => 0 <= i /\ d !! Z.to_nat i = Some x) idx sl.
Proof.
  revert sl. induction idx as [|i idx IH]; intros sl; simpl.
  - intros [= <-]. constructor.
  - destruct (Z.leb_spec 0 i); [|done].
    destruct (d !! Z.to_nat i) as [x|] eqn:Hx; [|done].
    destruct (slice_by_indices d idx) as [xs|]; [|done].
    intros [= <-]. constructor; [done|]. by apply IH.
Qed.

(** A view of a view shows what the view of its base at the composed
    positions shows. *)
Lemma slice_by_indices_compose base ps d idx sl :
  slice_by_indices base ps = Ok d -> slice_by_indices d idx = Ok sl ->
  slice_by_indices base (positions_at ps idx) = Ok sl.
Proof.
  intros Hd%slice_by_indices_Forall2. revert sl.
  induction idx as [|i idx IH]; intros sl; simpl; [done|].
  destruct (Z.leb_spec 0 i) as [Hi|Hi]; [|done].
  destruct (d !! Z.to_nat i) as [x|] eqn:Hx; [|done].
  destruct (slice_by_indices d idx) as [xs|] eqn:Hxs; [|done].
  intros [= <-].
  destruct (Forall2_lookup_r _ _ _ _ _ Hd Hx) as (p & Hp & Hp0 & Hpx).
  unfold positions_at. simpl.
  destruct (Z.leb_spec 0 i); [|lia]. rewrite Hp. simpl.
  destruct (Z.leb_spec 0 p); [|lia]. rewrite Hpx.
  fold (positions_at ps idx). by rewrite (IH xs).
Qed.

(** The view that [dp[indices]] makes shows the sliced instances. *)
Lemma lookup_put_view s r d idx sl l :
  heap s !! r = Some d -> slice_by_indices d idx = Ok sl ->
  objects (heap s) !! l = None ->
  heap (put l (view_of (heap s) r idx) s) !! l = Some sl.
Proof.
  intros Hd Hsl Hl. rewrite lookup_Store in *. unfold rows_of in *. simpl.
  rewrite lookup_insert_eq. unfold view_of.
  destruct (objects (heap s) !! r) as [[d0|base ps]|] eqn:Hr; [| |done].
  - injection Hd as ->.
    rewrite lookup_insert_ne by congruence. by rewrite Hr, Hsl.
  - destruct (objects (heap s) !! base) as [[b|? ?]|] eqn:Hb; [|done|done].
    destruct (slice_by_indices b ps) as [d0|] eqn:Hd0; [|done].
    injection Hd as ->.
    rewrite lookup_insert_ne by congruence. rewrite Hb.
    by rewrite (slice_by_indices_compose _ _ _ _ _ Hd0 Hsl).
Qed.

Lemma DataPack_getitem_run s r d idx sl :
  heap s !! r = Some d -> slice_by_indices d idx = Ok sl ->
  DataPack_getitem r idx s
  = (Ok (fresh (dom (objects (heap s)))),
     put (fresh (dom (objects (heap s)))) (view_of (heap s) r idx) s).
Proof.
  intros Hd Hsl. unfold DataPack_getitem, bind, lift, gets.
  by rewrite (load_run _ _ _ Hd), Hsl.
Qed.

Lemma DataPack_copy_run s r d :
  heap s !! r = Some d ->
  DataPack_copy r s
  = (Ok (fresh (dom (objects (heap s)))),
     put (fresh (dom (objects (heap s)))) (Rows d) s).
Proof. intros Hd. unfold DataPack_copy, bind. by rewrite (load_run _ _ _ Hd). Qed.

Lemma unpack_run s r d : heap s !! r = Some d -> unpack r s = (Ok (unpack_pack d), s).
Proof. intros Hd. unfold unpack, bind. by rewrite (load_run _ _ _ Hd). Qed.

Lemma call_upsample_run s r d nd nn :
  heap s !! r = Some d ->
  call_upsample upsample r nd nn s
  = (Ok (fresh (dom (objects (heap s)))),
     put (fresh (dom (objects (heap s)))) (Rows (upsample d nd nn (rng s)).1)
         (set_rng (upsample d nd nn (rng s)).2 s)).
Proof.
  intros Hd. unfold call_upsample, bind, gets, modify.
  by rewrite (load_run _ _ _ Hd).
Qed.

Lemma store_run s l d d' :
  objects (heap s) !! l = Some (Rows d) ->
  store l d' s = (Ok tt, put l (Rows d') s).
Proof. intros Hd. unfold store. by rewrite Hd. Qed.

Lemma get_text_left_run s l d :
  heap s !! l = Some d -> get_text_left l s = (Ok (text_left <$> d), s).
Proof. intros Hd. unfold get_text_left, bind. by rewrite (load_run _ _ _ Hd). Qed.

Lemma get_text_right_run s l d :
  heap s !! l = Some d -> get_text_right l s = (Ok (text_right <$> d), s).
Proof. intros Hd. unfold get_text_right, bind. by rewrite (load_run _ _ _ Hd). Qed.

Lemma set_text_left_run s l d func :
  objects (heap s) !! l = Some (Rows d) ->
  set_text_left l (func <$> (text_left <$> d)) s
  = (Ok tt,
     put l (Rows ((fun x => MkInstance (func (text_left x)) (text_right x) (label x))
                    <$> d)) s).
Proof.
  intros Hd. unfold set_text_left, bind.
  rewrite (load_run _ _ _ (lookup_rows _ _ _ Hd)), (store_run _ _ _ _ Hd).
  by rewrite <- list_fmap_compose, zip_with_fmap_self.
Qed.

Lemma set_text_right_run s l d func :
  objects (heap s) !! l = Some (Rows d) ->
  set_text_right l (func <$> (text_right <$> d)) s
  = (Ok tt,
     put l (Rows ((fun x => MkInstance (text_left x) (func (text_right x)) (label x))
                    <$> d)) s).
Proof.
  intros Hd. unfold set_text_right, bind.
  rewrite (load_run _ _ _ (lookup_rows _ _ _ Hd)), (store_run _ _ _ _ Hd).
  by rewrite <- list_fmap_compose, zip_with_fmap_self.
Qed.

Lemma objects_put s l (o : Object Value Label) :
  objects (heap (put l o s)) !! l = Some o.
Proof. simpl. apply lookup_insert_eq. Qed.

Lemma transform_columns_run s l d func :
  objects (heap s) !! l = Some (Rows d) ->
  transform_columns l (Some func) s
  = (Ok tt, put l (Rows (transformed func d)) s).
Proof.
  intros Hd. unfold transform_columns.
  unfold bind at 1. rewrite (get_text_left_run _ _ _ (lookup_rows _ _ _ Hd)).
  unfold bind at 1, lift, apply.
  unfold bind at 1. rewrite (set_text_left_run _ _ _ _ Hd).
  unfold bind at 1. erewrite get_text_right_run by apply lookup_put_rows.
  unfold bind at 1, lift.
  erewrite set_text_right_run by apply objects_put.
  rewrite put_put. unfold transformed. by rewrite <- list_fmap_compose.
Qed.

(** Without a function: an empty data pack stays as it is, and the
    first cell of any other raises TypeError. *)
Lemma transform_columns_none_run s l d :
  objects (heap s) !! l = Some (Rows d) ->
  transform_columns l None s
  = match d with
    | [] => (Ok tt, put l (Rows []) s)
    | _ :: _ => (Raise TypeError, s)
    end.
Proof.
  intros Hd. unfold transform_columns.
  unfold bind at 1. rewrite (get_text_left_run _ _ _ (lookup_rows _ _ _ Hd)).
  destruct d as [|x d]; [|done].
  unfold bind at 1, lift, apply. simpl.
  unfold bind at 1, set_text_left, bind at 1.
  rewrite (load_run _ _ _ (lookup_rows _ _ _ Hd)), (store_run _ _ _ _ Hd). simpl.
  unfold bind at 1. erewrite get_text_right_run by apply lookup_put_rows.
  unfold bind at 1, lift. simpl.
  unfold set_text_right, bind at 1.
  erewrite load_run by apply lookup_put_rows.
  erewrite store_run by apply objects_put. simpl. by rewrite put_put.
Qed.

Lemma with_view_lookup s d idx sl :
  heap s !! _data_pack (self s) = Some d -> slice_by_indices d idx = Ok sl ->
  heap (with_view s idx) !! fresh (dom (objects (heap s))) = Some sl.
Proof. intros Hd Hsl. by apply (lookup_put_view s _ d), fresh_object. Qed.

(** The materializers compute [materialized] of the sliced instances. *)
Lemma get_batch_result s d idx sl :
  heap s !! _data_pack (self s) = Some d ->
  slice_by_indices d idx = Ok sl ->
  (_get_batch_of_transformed_samples upsample idx s).1
  = materialized (class_of (self s)) sl (rng s).
Proof.
  intros Hd Hsl. pose proof (with_view_lookup s d idx sl Hd Hsl) as Hview.
  unfold _get_batch_of_transformed_samples, bind at 1, gets.
  destruct (class_of (self s)) as [|[u|]|[func|]|nn nd|nn nd [u|]];
    unfold bind at 1; rewrite (DataPack_getitem_run _ _ _ _ _ Hd Hsl);
    fold (with_view s idx); unfold materialized.
  - by rewrite (unpack_run _ _ _ Hview).
  - unfold bind at 1. rewrite (DataPack_copy_run _ _ _ Hview).
    unfold bind at 1, unit_transform, ret at 1.
    unfold bind at 1. erewrite transform_columns_run by apply objects_put.
    by erewrite unpack_run by apply lookup_put_rows.
  - unfold bind at 1. rewrite (DataPack_copy_run _ _ _ Hview).
    by unfold bind at 1, unit_transform, raise.
  - unfold bind at 1. rewrite (DataPack_copy_run _ _ _ Hview).
    unfold bind at 1. erewrite transform_columns_run by apply objects_put.
    by erewrite unpack_run by apply lookup_put_rows.
  - unfold bind at 1. rewrite (DataPack_copy_run _ _ _ Hview).
    unfold bind at 1. erewrite transform_columns_none_run by apply objects_put.
    destruct sl as [|x sl]; [|done].
    by erewrite unpack_run by apply lookup_put_rows.
  - unfold bind at 1. rewrite (call_upsample_run _ _ _ _ _ Hview).
    by erewrite unpack_run by apply lookup_put_rows.
  - unfold bind at 1. rewrite (DataPack_copy_run _ _ _ Hview).
    unfold bind at 1, unit_transform, ret at 1.
    unfold bind at 1. erewrite transform_columns_run by apply objects_put.
    unfold bind at 1. erewrite call_upsample_run by apply lookup_put_rows.
    by erewrite unpack_run by apply lookup_put_rows.
  - unfold bind at 1. rewrite (DataPack_copy_run _ _ _ Hview).
    by unfold bind at 1, unit_transform, raise.
Qed.

Lemma objects_put_fresh s l (o : Object Value Label) l' o' :
  objects (heap s) !! l = None ->
  objects (heap s) !! l' = Some o' -> objects (heap (put l o s)) !! l' = Some o'.
Proof.
  intros Hl Hl'. simpl. rewrite lookup_insert_ne; [done|]. congruence.
Qed.

(** Where a transforming materializer leaves the view and the copy: the
    view still shows the sliced instances, and the transformed instances
    are the rows of the copy. *)
Lemma get_batch_copy s d idx sl func :
  transform_of (class_of (self s)) = Some func ->
  heap s !! _data_pack (self s) = Some d ->
  slice_by_indices d idx = Ok sl ->
  let s' := (_get_batch_of_transformed_samples upsample idx s).2 in
  let view := fresh (dom (objects (heap s))) in
  let copy := fresh (dom (objects (heap (with_view s idx)))) in
  objects (heap s') !! view
    = Some (view_of (heap s) (_data_pack (self s)) idx) /\
  heap s' !! view = Some sl /\
  objects (heap s') !! copy = Some (Rows (transformed func sl)).
Proof.
  intros Hf Hd Hsl s' view copy.
  pose proof (with_view_lookup s d idx sl Hd Hsl) as Hview.
  assert (Hobj : objects (heap (with_view s idx)) !! view
                 = Some (view_of (heap s) (_data_pack (self s)) idx))
    by apply objects_put.
  pose proof (fresh_object (with_view s idx)) as Hcopy. fold copy in Hcopy.
  set (s2 := put copy (Rows (transformed func sl)) (with_view s idx)).
  assert (H2 : objects (heap s2) !! view
               = Some (view_of (heap s) (_data_pack (self s)) idx) /\
               heap s2 !! view = Some sl /\
               objects (heap s2) !! copy = Some (Rows (transformed func sl))).
  { split; [by apply objects_put_fresh|].
    split; [by apply lookup_put_fresh|apply objects_put]. }
  set (P := fun s1 : State Value Label Rng =>
              s1 = s2 \/
              exists l o g, objects (heap s2) !! l = None /\
                            s1 = put l o (set_rng g s2)).
  assert (Hs' : P s').
  { subst s'. unfold _get_batch_of_transformed_samples, bind at 1, gets.
    destruct (class_of (self s)) as [|[u|]|[f|]|nn nd|nn nd [u|]];
      simpl in Hf; try done; injection Hf as Hf; subst func;
      unfold bind at 1; rewrite (DataPack_getitem_run _ _ _ _ _ Hd Hsl);
      fold (with_view s idx);
      unfold bind at 1; rewrite (DataPack_copy_run _ _ _ Hview); fold copy.
    - unfold bind at 1, unit_transform, ret at 1.
      unfold bind at 1. erewrite transform_columns_run by apply objects_put.
      rewrite put_put. fold s2.
      erewrite unpack_run by apply lookup_put_rows. by left.
    - unfold bind at 1. erewrite transform_columns_run by apply objects_put.
      rewrite put_put. fold s2.
      erewrite unpack_run by apply lookup_put_rows. by left.
    - unfold bind at 1, unit_transform, ret at 1.
      unfold bind at 1. erewrite transform_columns_run by apply objects_put.
      rewrite put_put. fold s2.
      unfold bind at 1. erewrite call_upsample_run by apply lookup_put_rows.
      erewrite unpack_run by apply lookup_put_rows.
      right. eexists _, _, _. split; [|simpl; reflexivity]. apply fresh_object. }
  unfold P in Hs'.
  destruct H2 as (Ha & Hb & Hc).
  destruct Hs' as [->|(l & o & g & Hl & ->)]; [done|].
  split; [by apply objects_put_fresh|].
  split; [by apply lookup_put_fresh|by apply objects_put_fresh].
Qed.

(** C9. A batch request leaves the attributes of the generator and
    every object of the store as they were: what the store held before
    the call, the data pack of the generator included, it holds
    unchanged after it.  Slicing the data pack gives a view that shares
    the data pack's storage, and a column written through a view reaches
    the data pack; the transforming classes write the transformed
    columns to the copy of the view, an object with rows of its own that
    the call itself created: after a request that resolves to indices
    [idx] slicing the data pack to [sl], the view still shows [sl] and
    the rows of the copy are [sl] transformed. *)
Theorem getitem_leaves_dataset_unchanged item s :
  let s' := (__getitem__ upsample item s).2 in
  self s' = self s /\
  heap s ⊆ heap s' /\
  heap s' !! _data_pack (self s') = heap s !! _data_pack (self s) /\
  objects (heap s) ⊆ objects (heap s') /\
  (forall func idx d sl,
     transform_of (class_of (self s)) = Some func ->
     (item_indices item s).1 = Ok idx ->
     heap s !! _data_pack (self s) = Some d ->
     slice_by_indices d idx = Ok sl ->
     exists view copy,
       fresh_for s view /\ fresh_for s copy /\ view <> copy /\
       objects (heap s') !! view
         = Some (view_of (heap s) (_data_pack (self s)) idx) /\
       heap s' !! view = Some sl /\
       objects (heap s') !! copy = Some (Rows (transformed func sl))).
Proof.
  intros s'. destruct (getitem_frame item s) as [Hself Hsub].
  split; [done|]. split; [by apply objects_subseteq_Store|].
  fold s' in Hself. rewrite Hself.
  pose proof (item_indices_state item s) as Hst.
  split; [|split; [done|]].
  - destruct (heap s !! _data_pack (self s)) as [d|] eqn:Hd.
    + by apply (objects_subseteq_lookup _ _ _ _ Hsub Hd).
    + subst s'. unfold __getitem__, bind.
      destruct (item_indices item s) as [[idx|e] s1]; simpl in Hst; subst s1.
      * by rewrite get_batch_dangling.
      * done.
  - intros func idx d sl Hf Hidx Hd Hsl.
    assert (Hs' : s' = (_get_batch_of_transformed_samples upsample idx s).2).
    { subst s'. unfold __getitem__, bind.
      destruct (item_indices item s) as [[idx'|e] s1]; simpl in *; [|done].
      by simplify_eq. }
    destruct (get_batch_copy s d idx sl func Hf Hd Hsl) as (Ha & Hb & Hc).
    pose proof (fresh_object s) as Hview.
    pose proof (fresh_object (with_view s idx)) as Hcopy.
    simpl in Hcopy. apply lookup_insert_None in Hcopy as [Hcopy Hne].
    eexists _, _. rewrite Hs'.
    split; [exact Hview|]. split; [exact Hcopy|]. split; [exact Hne|].
    split; [exact Ha|]. split; [exact Hb|exact Hc].
Qed.

(** C8. In [DataGeneratorFusion] with a unit, a batch over sliceable
    indices is the unpacked result of the upsampling collaborator, and
    the data pack that the collaborator receives is the slice with the
    unit's transform already applied to every left and every right text:
    slice, transform, upsample, unpack, in this order. *)
Theorem fusion_transforms_before_upsampling s d idx sl num_neg num_dup u :
  class_of (self s) = DataGeneratorFusion num_neg num_dup (Some u) ->
  heap s !! _data_pack (self s) = Some d ->
  slice_by_indices d idx = Ok sl ->
  let dp := transformed (transform u) sl in
  text_left <$> dp = transform u <$> (text_left <$> sl) /\
  text_right <$> dp = transform u <$> (text_right <$> sl) /\
  label <$> dp = label <$> sl /\
  (_get_batch_of_transformed_samples upsample idx s).1
  = Ok (unpack_pack (upsample dp num_dup num_neg (rng s)).1).
Proof.
  intros Hcls Hd Hsl dp. subst dp. unfold transformed.
  rewrite <- !list_fmap_compose.
  repeat split; [..|by rewrite (get_batch_result s d idx sl Hd Hsl), Hcls].
Qed.

(** *** The states a generator goes through *)

Lemma set_indices_dangling s :
  heap s !! _data_pack (self s) = None ->
  _set_indices permutation s = (Raise ReferenceError, s).
Proof.
  intros Hd. unfold _set_indices, bind at 1, gets.
  unfold bind at 1, DataPack_len, bind at 1, load. by rewrite Hd.
Qed.

Lemma after_draw_self s n : self (after_draw s n) = self s.
Proof. unfold after_draw. by destruct (_shuffle (self s)). Qed.

Lemma after_draw_heap s n : heap (after_draw s n) = heap s.
Proof. unfold after_draw. by destruct (_shuffle (self s)). Qed.

Lemma set_indices_partitioned s s' :
  _set_indices permutation s = (Ok tt, s') -> partitioned s'.
Proof.
  destruct (heap s !! _data_pack (self s)) as [d|] eqn:Hd;
    [|by rewrite set_indices_dangling].
  rewrite (set_indices_run s d Hd). cbv zeta.
  destruct (Z.eqb_spec (_batch_size (self s)) 0); [done|].
  destruct (Z.ltb_spec (ceil_div (len d) (_batch_size (self s))) 0); [done|].
  intros [= <-]. exists d, s. simpl.
  by rewrite after_draw_self, after_draw_heap.
Qed.

Lemma partitioned_set_indices s :
  partitioned s -> exists s', _set_indices permutation s = (Ok tt, s').
Proof.
  intros (d & s0 & Hd & Hbs & Hc & _).
  rewrite (set_indices_run s d Hd). cbv zeta.
  destruct (Z.eqb_spec (_batch_size (self s)) 0); [done|].
  destruct (Z.ltb_spec (ceil_div (len d) (_batch_size (self s))) 0); [lia|].
  by eexists.
Qed.

Lemma len_run s d :
  heap s !! _data_pack (self s) = Some d -> _batch_size (self s) <> 0 ->
  __len__ s = (Ok (ceil_div (len d) (_batch_size (self s))), s).
Proof.
  intros Hd Hbs. unfold __len__, bind at 1, gets.
  unfold bind at 1, DataPack_len, bind at 1. rewrite (load_run _ _ _ Hd).
  unfold ret at 1. by destruct (Z.eqb_spec (_batch_size (self s)) 0).
Qed.

Lemma len_self_state s : (len_self s).2 = s.
Proof.
  unfold len_self, bind at 1, __len__, bind at 1, gets.
  unfold bind at 1, DataPack_len, bind at 1, load.
  destruct (heap s !! _data_pack (self s)); [|done]. unfold ret at 1.
  destruct (_batch_size (self s) =? 0); [done|]. unfold ret at 1.
  by destruct (_ <? 0).
Qed.

Lemma partitioned_frame s s' : frame s s' -> partitioned s -> partitioned s'.
Proof.
  intros [Hself Hsub] (d & s0 & Hd & Hrest). exists d, s0. rewrite Hself.
  split; [|done]. by apply (objects_subseteq_lookup _ _ _ _ Hsub Hd).
Qed.

Lemma reachable_partitioned s : reachable s -> partitioned s.
Proof.
  induction 1 as [cls dp bs sh h g s Hinit|c s _ IH].
  - by apply set_indices_partitioned in Hinit.
  - destruct c; simpl.
    + eapply partitioned_frame; [apply getitem_frame|done].
    + by rewrite len_self_state.
    + destruct (partitioned_set_indices s IH) as [s' Hs'].
      unfold on_epoch_end. rewrite Hs'. by apply set_indices_partitioned in Hs'.
    + destruct (partitioned_set_indices s IH) as [s' Hs'].
      unfold reset. rewrite Hs'. by apply set_indices_partitioned in Hs'.
Qed.


(** *** Batch requests *)

Lemma item_indices_index s table i :
  _batch_indices (self s) = Some table ->
  item_indices (Index i) s = (getitem table i, s).
Proof. intros Ht. unfold item_indices, bind, gets, lift. by rewrite Ht. Qed.

Lemma item_indices_range s table sl :
  _batch_indices (self s) = Some table ->
  item_indices (Range sl) s
  = (match getslice table sl with
     | Ok batches => Ok (concat batches)
     | Raise e => Raise e
     end, s).
Proof.
  intros Ht. unfold item_indices, bind, gets, lift, ret. rewrite Ht.
  destruct (getslice table sl); [|done]. by rewrite sum_lists_concat.
Qed.

Lemma getitem_raise item s e :
  item_indices item s = (Raise e, s) ->
  __getitem__ upsample item s = (Raise e, s).
Proof. intros H. unfold __getitem__, bind. by rewrite H. Qed.

Lemma getitem_resolved item s idx :
  item_indices item s = (Ok idx, s) ->
  __getitem__ upsample item s = _get_batch_of_transformed_samples upsample idx s.
Proof. intros H. unfold __getitem__, bind. by rewrite H. Qed.

(** C5, as the code has it.  In every state of a constructed generator
    of length B, a request for a single index [i] with [i >= B] or
    [i < -B] fails with IndexError and changes nothing; when the data
    pack is empty every request for a single index fails so. *)
Theorem single_index_out_of_range s :
  reachable s ->
  exists B,
    (__len__ s).1 = Ok B /\
    (forall i, B <= i \/ i < - B ->
       __getitem__ upsample (Index i) s = (Raise IndexError, s)) /\
    (forall d, heap s !! _data_pack (self s) = Some d -> len d = 0 ->
       B = 0 /\
       forall i, __getitem__ upsample (Index i) s = (Raise IndexError, s)).
Proof.
  intros (d & s0 & Hd & Hbs & Hc & Ht)%reachable_partitioned.
  exists (ceil_div (len d) (_batch_size (self s))).
  rewrite (len_run s d Hd Hbs).
  assert (Hout : forall i,
    ceil_div (len d) (_batch_size (self s)) <= i \/
    i < - ceil_div (len d) (_batch_size (self s)) ->
    __getitem__ upsample (Index i) s = (Raise IndexError, s)).
  { intros i Hi. apply getitem_raise.
    rewrite (item_indices_index _ _ _ Ht). f_equal.
    apply getitem_out_of_range. rewrite length_chunks. lia. }
  split; [done|]. split; [done|].
  intros d' Hd' Hlen. rewrite Hd in Hd'. injection Hd' as <-.
  assert (Hz : ceil_div (len d) (_batch_size (self s)) = 0).
  { rewrite Hlen. unfold ceil_div. simpl. by rewrite Z.div_0_l. }
  split; [done|]. intros i. apply Hout. lia.
Qed.

(** C7. After a batch request for [item], and after any further calls
    that do not re-partition (batch requests and [len]), the same
    request resolves to the same index list as it did the first time. *)
Theorem getitem_index_list_is_stable (between : list Call) item s :
  Forall (fun c => is_repartition c = false) between ->
  let s1 := (__getitem__ upsample item s).2 in
  let s2 := run_calls between s1 in
  _batch_indices (self s2) = _batch_indices (self s) /\
  (item_indices item s1).1 = (item_indices item s).1 /\
  (item_indices item s2).1 = (item_indices item s).1.
Proof.
  intros Hbetween s1 s2.
  assert (Hindices : forall sa sb : State Value Label Rng,
    self sa = self sb -> (item_indices item sa).1 = (item_indices item sb).1).
  { intros sa sb Hab. unfold item_indices, bind, gets, lift, ret, raise.
    rewrite Hab. destruct (_batch_indices (self sb)); [|done].
    destruct item; [done|]. by destruct (getslice _ _). }
  assert (H1 : self s1 = self s) by apply getitem_frame.
  assert (H2 : self s2 = self s1).
  { subst s2. generalize s1. clear -Hbetween.
    induction Hbetween as [|c cs Hc _ IH]; intros s; [done|].
    change (run_calls (c :: cs) s) with (run_calls cs (run_call c s)).
    rewrite IH. destruct c; simpl; try done.
    - apply getitem_frame.
    - by rewrite len_self_state. }
  split; [by rewrite H2, H1|]. split; apply Hindices; congruence.
Qed.

(** C4, as the code has it.  For a slice, [__getitem__] concatenates
    the index lists of the positions of the slice, each the list that a
    request for that single position resolves to, in the order in which
    the slice lists them, and materializes one batch from the result;
    this is the order of the table when the step is positive or left
    out. *)
Theorem slice_concatenates_batches s table sl ps :
  _batch_indices (self s) = Some table ->
  slice_positions sl (len table) = Ok ps ->
  exists batches,
    Forall2 (fun p b => item_indices (Index p) s = (Ok b, s)) ps batches /\
    item_indices (Range sl) s = (Ok (concat batches), s) /\
    __getitem__ upsample (Range sl) s
    = _get_batch_of_transformed_samples upsample (concat batches) s /\
    (0 < default 1 (slice_step sl) ->
     item_indices (Range sl) s = (indices_in_table_order table sl, s)).
Proof.
  intros Ht Hps.
  pose proof (slice_positions_bounds sl _ ps (len_nonneg table) Hps) as Hbounds.
  exists (omap (fun p : Z => table !! Z.to_nat p) ps).
  assert (Hrange : item_indices (Range sl) s
    = (Ok (concat (omap (fun p : Z => table !! Z.to_nat p) ps)), s)).
  { rewrite (item_indices_range _ _ _ Ht). unfold getslice. by rewrite Hps. }
  split; [|split; [done|split]].
  - pose proof (omap_lookup_Forall2 table ps Hbounds) as Hall.
    clear Hrange Hps. revert Hall Hbounds.
    generalize (omap (fun p : Z => table !! Z.to_nat p) ps). intros bs Hall.
    induction Hall as [|p b ps bs Hb _ IH]; intros Hbounds; [constructor|].
    apply Forall_cons in Hbounds as [Hp Hbounds]. constructor; [|by apply IH].
    rewrite (item_indices_index _ _ _ Ht). f_equal.
    apply getitem_nonneg; [lia|done].
  - by apply getitem_resolved.
  - intros Hstep. rewrite Hrange. f_equal. unfold indices_in_table_order.
    rewrite Hps. do 3 f_equal. symmetry. apply merge_sort_ascending.
    unfold slice_positions in Hps.
    destruct (indices sl (len table)) as [[[start stop] step]|] eqn:Hi; [|done].
    injection Hps as <-. apply positions_ascending.
    by destruct (indices_step _ _ _ _ _ Hi) as [-> _].
Qed.

Lemma materialized_ok cls sl g :
  has_unit cls = true -> is_ok (materialized cls sl g) = true.
Proof. by destruct cls as [|[?|]|[?|]| |? ? [?|]]. Qed.

Lemma slice_by_indices_ok d (idx : list Z) :
  Forall (fun j => 0 <= j < len d) idx -> exists sl, slice_by_indices d idx = Ok sl.
Proof.
  induction 1 as [|j idx Hj _ [sl IH]]; [by eexists|]. simpl.
  destruct (Z.leb_spec 0 j); [|lia]. unfold len in Hj.
  destruct (lookup_lt_is_Some_2 d (Z.to_nat j)) as [x Hx]; [lia|].
  rewrite Hx, IH. by eexists.
Qed.

Lemma chunk_subseteq (pool : list Z) bs i : chunk pool bs i ⊆ pool.
Proof. unfold chunk. etrans; [apply subseteq_take|apply subseteq_drop]. Qed.

Section Requests.

Hypothesis permutation_spec :
  forall n g, 0 <= n -> (permutation n g).1 ≡ₚ range n.

(** C10. In a constructed generator of length B >= 1, a request for
    a single index [i] with [-B <= i <= -1] resolves to the index list
    of position [B + i] of the table; its indices are all positions of
    the data pack, so that the batch is what the materializer makes of
    their instances, and the request raises nothing when the class has
    its unit.  A single index raises IndexError exactly when it is
    [>= B] or [< -B]. *)
Theorem negative_index_counts_from_end s B i :
  reachable s -> (__len__ s).1 = Ok B -> 1 <= B -> - B <= i <= -1 ->
  exists d table idx sl,
    heap s !! _data_pack (self s) = Some d /\
    _batch_indices (self s) = Some table /\
    table !! Z.to_nat (B + i) = Some idx /\
    item_indices (Index i) s = (Ok idx, s) /\
    slice_by_indices d idx = Ok sl /\
    (__getitem__ upsample (Index i) s).1
    = materialized (class_of (self s)) sl (rng s) /\
    (has_unit (class_of (self s)) = true ->
     is_ok (__getitem__ upsample (Index i) s).1 = true) /\
    (forall j, (item_indices (Index j) s).1 = Raise IndexError
               <-> B <= j \/ j < - B).
Proof.
  intros (d & s0 & Hd & Hbs & Hc & Ht)%reachable_partitioned HB Hpos Hi.
  rewrite (len_run s d Hd Hbs) in HB. injection HB as HB.
  set (pool := index_pool_of s0 (len d)) in *.
  set (bs := _batch_size (self s)) in *.
  assert (Hlen : len (chunk pool bs <$> range (ceil_div (len d) bs)) = B)
    by (rewrite length_chunks; lia).
  assert (Hidx : (chunk pool bs <$> range (ceil_div (len d) bs))
                   !! Z.to_nat (B + i) = Some (chunk pool bs (B + i)))
    by (apply lookup_chunks; lia).
  assert (Hres : item_indices (Index i) s = (Ok (chunk pool bs (B + i)), s)).
  { rewrite (item_indices_index _ _ _ Ht). f_equal.
    rewrite getitem_negative by lia. rewrite Hlen.
    apply getitem_nonneg; [lia|done]. }
  destruct (slice_by_indices_ok d (chunk pool bs (B + i))) as [sl Hsl].
  { apply Forall_forall. intros x Hx%chunk_subseteq.
    pose proof (len_nonneg d) as HN. unfold pool in Hx.
    rewrite (index_pool_Permutation permutation_spec s0 _ HN) in Hx.
    apply elem_of_seqZ in Hx. lia. }
  assert (Hbatch : (__getitem__ upsample (Index i) s).1
                   = materialized (class_of (self s)) sl (rng s)).
  { rewrite (getitem_resolved _ _ _ Hres). by apply (get_batch_result s d). }
  eexists d, _, _, sl. repeat split; try done.
  - rewrite Hbatch. apply materialized_ok.
  - rewrite (item_indices_index _ _ _ Ht). simpl.
    rewrite getitem_IndexError, Hlen. done.
  - rewrite (item_indices_index _ _ _ Ht). simpl.
    rewrite getitem_IndexError, Hlen. done.
Qed.

End Requests.

(** *** More about the partition *)

Lemma drop_seqZ (a n : Z) (k : nat) :
  drop k (seqZ a n) = seqZ (a + Z.of_nat k) (n - Z.of_nat k).
Proof.
  apply list_eq. intros j. rewrite lookup_drop.
  destruct (decide (Z.of_nat (k + j) < n)).
  - rewrite !lookup_seqZ_lt by lia. f_equal. lia.
  - by rewrite !lookup_seqZ_ge by lia.
Qed.

Lemma take_seqZ (a n : Z) (k : nat) :
  take k (seqZ a n) = seqZ a (Z.min (Z.of_nat k) n).
Proof.
  apply list_eq. intros j.
  destruct (decide (j < k)%nat).
  - rewrite lookup_take_lt by done.
    destruct (decide (Z.of_nat j < n)).
    + by rewrite !lookup_seqZ_lt by lia.
    + by rewrite !lookup_seqZ_ge by lia.
  - rewrite lookup_take_ge by lia. by rewrite lookup_seqZ_ge by lia.
Qed.

Lemma concat_chunks_run (pool : list Z) (bs a : Z) (m : nat) :
  0 < bs -> 0 <= a ->
  concat (chunk pool bs <$> seqZ a (Z.of_nat m))
  = take (m * Z.to_nat bs) (drop (Z.to_nat (a * bs)) pool).
Proof.
  intros Hbs Ha. induction m as [|m IH]; [done|].
  rewrite seqZ_S, fmap_app, concat_app, IH. simpl. rewrite app_nil_r.
  unfold chunk.
  replace (Z.to_nat (bs * (a + Z.of_nat m)))
    with (Z.to_nat (a * bs) + m * Z.to_nat bs)%nat by nia.
  rewrite <- drop_drop, take_take_drop. f_equal. lia.
Qed.


Local Abbreviation partitioned_by_flag := (partitioned_by_flag permutation).

Lemma set_indices_by_flag s s' :
  _set_indices permutation s = (Ok tt, s') -> partitioned_by_flag s'.
Proof.
  destruct (heap s !! _data_pack (self s)) as [d|] eqn:Hd;
    [|by rewrite set_indices_dangling].
  rewrite (set_indices_run s d Hd). cbv zeta.
  destruct (Z.eqb_spec (_batch_size (self s)) 0); [done|].
  destruct (Z.ltb_spec (ceil_div (len d) (_batch_size (self s))) 0); [done|].
  intros [= <-]. exists d, (rng s). simpl.
  rewrite after_draw_self, after_draw_heap. unfold index_pool_of.
  by destruct (_shuffle (self s)).
Qed.

Lemma reachable_by_flag s : reachable s -> partitioned_by_flag s.
Proof.
  induction 1 as [cls dp bs sh h g s Hinit|c s Hreach IH].
  - by apply set_indices_by_flag in Hinit.
  - destruct c; simpl.
    + destruct (getitem_frame item s) as [Hself Hsub].
      destruct IH as (d & g0 & Hd & Hrest). exists d, g0. rewrite Hself.
      split; [|done]. by apply (objects_subseteq_lookup _ _ _ _ Hsub Hd).
    + by rewrite len_self_state.
    + destruct (partitioned_set_indices s (reachable_partitioned s Hreach)) as [s' Hs'].
      unfold on_epoch_end. rewrite Hs'. by apply set_indices_by_flag in Hs'.
    + destruct (partitioned_set_indices s (reachable_partitioned s Hreach)) as [s' Hs'].
      unfold reset. rewrite Hs'. by apply set_indices_by_flag in Hs'.
Qed.

Lemma set_batch_indices_same s table :
  _batch_indices (self s) = Some table -> set_batch_indices (Some table) s = s.
Proof. destruct s as [[] ? ?]. simpl. by intros ->. Qed.

(** X6. Without shuffling, [on_epoch_end] and [reset] on a constructed
    generator return normally and leave the whole state as it was: the
    table, the store and the random source. *)
Theorem repartition_without_shuffle_is_identity s :
  reachable s -> _shuffle (self s) = false ->
  on_epoch_end permutation s = (Ok tt, s) /\ reset permutation s = (Ok tt, s).
Proof.
  intros (d & g0 & Hd & Hbs & Hc & Ht)%reachable_by_flag Hsh.
  assert (Hrun : _set_indices permutation s = (Ok tt, s)).
  { rewrite (set_indices_run s d Hd). cbv zeta.
    destruct (Z.eqb_spec (_batch_size (self s)) 0); [done|].
    destruct (Z.ltb_spec (ceil_div (len d) (_batch_size (self s))) 0); [lia|].
    unfold after_draw, index_pool_of. rewrite Hsh in *.
    by rewrite set_batch_indices_same. }
  by split.
Qed.

(** X7. A re-partition of a constructed generator returns normally and
    touches nothing but the table and the random source: the class, the
    data pack reference, the batch size, the shuffle flag and the store
    stay, and the random source is advanced by one draw of
    [permutation(N)] when the generator shuffles and not at all when it
    does not. *)
Theorem repartition_touches_table_and_rng_only s :
  reachable s ->
  exists d,
    heap s !! _data_pack (self s) = Some d /\
    let s' := (on_epoch_end permutation s).2 in
    (on_epoch_end permutation s).1 = Ok tt /\
    heap s' = heap s /\
    class_of (self s') = class_of (self s) /\
    _data_pack (self s') = _data_pack (self s) /\
    _batch_size (self s') = _batch_size (self s) /\
    _shuffle (self s') = _shuffle (self s) /\
    rng s' = (if _shuffle (self s) then (permutation (len d) (rng s)).2 else rng s).
Proof.
  intros (d & g0 & Hd & Hbs & Hc & Ht)%reachable_by_flag.
  exists d. split; [done|]. unfold on_epoch_end.
  rewrite (set_indices_run s d Hd). cbv zeta.
  destruct (Z.eqb_spec (_batch_size (self s)) 0); [done|].
  destruct (Z.ltb_spec (ceil_div (len d) (_batch_size (self s))) 0); [lia|].
  simpl. rewrite after_draw_self, after_draw_heap. unfold after_draw.
  by destruct (_shuffle (self s)).
Qed.

Lemma getslice_full {A} (l : list A) : getslice l (Slice None None None) = Ok l.
Proof.
  unfold getslice, slice_positions, indices, positions, slicelength. simpl.
  f_equal. destruct (Z.ltb_spec 0 (len l)) as [Hl|Hl].
  - rewrite Z.div_1_r. rewrite (omap_lookup_run l 0 0); unfold len in *; [|lia|lia].
    simpl. apply take_ge. lia.
  - unfold len in Hl. by destruct l; [|simpl in Hl; lia].
Qed.

Lemma seqZ_to_nat (a n : Z) : seqZ a n = seqZ a (Z.of_nat (Z.to_nat n)).
Proof. unfold seqZ. by rewrite Nat2Z.id. Qed.

(** X2. The index list of [gen[a:b]] (0 <= a <= b) is the part
    [a * batch_size : b * batch_size] of the index list of [gen[:]],
    which is the whole table put end to end: several consecutive batches
    asked for as one unit are a contiguous stretch of the index pool. *)
Theorem consecutive_batches_are_a_stretch_of_the_pool s (a b : Z) :
  reachable s -> 1 <= _batch_size (self s) -> 0 <= a <= b ->
  exists table,
    _batch_indices (self s) = Some table /\
    item_indices (Range (Slice None None None)) s = (Ok (concat table), s) /\
    item_indices (Range (Slice (Some a) (Some b) None)) s
    = (Ok (take (Z.to_nat ((b - a) * _batch_size (self s)))
             (drop (Z.to_nat (a * _batch_size (self s))) (concat table))), s).
Proof.
  intros (d & s0 & Hd & Hbs & Hc & Ht)%reachable_partitioned Hpos Hab.
  eexists. split; [done|].
  rewrite !(item_indices_range _ _ _ Ht), getslice_full.
  split; [done|]. rewrite getslice_simple by done. do 2 f_equal.
  set (bs := _batch_size (self s)) in *.
  set (B := ceil_div (len d) bs) in *.
  set (pool := index_pool_of s0 (len d)).
  unfold range. rewrite <- fmap_drop, <- fmap_take, drop_seqZ, take_seqZ.
  rewrite (seqZ_to_nat _ (Z.min _ _)), concat_chunks_run by lia.
  rewrite (seqZ_to_nat 0 B), (concat_chunks_run _ _ 0) by lia.
  simpl. rewrite drop_0.
  replace (Z.to_nat ((0 + Z.of_nat (Z.to_nat a)) * bs))
    with (Z.to_nat a * Z.to_nat bs)%nat by nia.
  replace (Z.to_nat (a * bs)) with (Z.to_nat a * Z.to_nat bs)%nat by nia.
  replace (Z.to_nat ((b - a) * bs))
    with ((Z.to_nat b - Z.to_nat a) * Z.to_nat bs)%nat by nia.
  replace (Z.to_nat (Z.min (Z.of_nat (Z.to_nat (b - a))) (B - Z.of_nat (Z.to_nat a))))
    with (Nat.min (Z.to_nat b - Z.to_nat a) (Z.to_nat B - Z.to_nat a)) by lia.
  assert (Hle : (Z.to_nat a <= Z.to_nat b)%nat) by lia.
  assert (Hbs' : (0 < Z.to_nat bs)%nat) by lia.
  generalize dependent (Z.to_nat bs). generalize dependent (Z.to_nat b).
  generalize (Z.to_nat a) (Z.to_nat B). clear. intros an Bn bn Hle bsn Hbs.
  apply list_eq. intros j.
  rewrite !lookup_take, !lookup_drop, lookup_take.
  destruct (Nat.min_spec (bn - an) (Bn - an)) as [[Hm ->]|[Hm ->]];
    repeat case_decide; try done; nia.
Qed.

(** *** More about batch requests *)

(** The result of a materializer in every case: a dangling data pack, a
    data pack that cannot be sliced, and a slice. *)
Lemma get_batch_result_total s idx :
  (_get_batch_of_transformed_samples upsample idx s).1
  = match heap s !! _data_pack (self s) with
    | None => Raise ReferenceError
    | Some d =>
        match slice_by_indices d idx with
        | Ok sl => materialized (class_of (self s)) sl (rng s)
        | Raise e => Raise e
        end
    end.
Proof.
  destruct (heap s !! _data_pack (self s)) as [d|] eqn:Hd.
  - destruct (slice_by_indices d idx) as [sl|e] eqn:Hsl;
      [by apply (get_batch_result s d)|].
    unfold _get_batch_of_transformed_samples, bind at 1, gets.
    destruct (class_of (self s));
      unfold bind at 1, DataPack_getitem, bind at 1;
      rewrite (load_run _ _ _ Hd); unfold bind at 1, lift; by rewrite Hsl.
  - unfold _get_batch_of_transformed_samples, bind at 1, gets.
    destruct (class_of (self s));
      unfold bind at 1, DataPack_getitem, bind at 1, load; by rewrite Hd.
Qed.



Lemma getitem_result item s :
  (__getitem__ upsample item s).1
  = match (item_indices item s).1 with
    | Ok idx => (_get_batch_of_transformed_samples upsample idx s).1
    | Raise e => Raise e
    end.
Proof.
  unfold __getitem__, bind. pose proof (item_indices_state item s) as Hst.
  destruct (item_indices item s) as [[idx|e] s1]; simpl in *; by subst.
Qed.



(** X10. [UnitDynamicDataGenerator(unit=u)] and
    [DynamicDataGenerator(func=u.transform)] give the same result for
    every index list, batch or exception. *)
Theorem unit_generator_agrees_with_function_generator s (u : Unit Value) idx :
  (_get_batch_of_transformed_samples upsample idx
     (set_class (UnitDynamicDataGenerator (Some u)) s)).1
  = (_get_batch_of_transformed_samples upsample idx
       (set_class (DynamicDataGenerator (Some (transform u))) s)).1.
Proof. by rewrite !get_batch_result_total. Qed.

Lemma slice_by_indices_transformed (func : Value -> Value) d idx :
  slice_by_indices (transformed func d) idx
  = match slice_by_indices d idx with
    | Ok sl => Ok (transformed func sl)
    | Raise e => Raise e
    end.
Proof.
  induction idx as [|i idx IH]; [done|]. simpl. rewrite IH.
  unfold transformed at 1. rewrite list_lookup_fmap.
  destruct (0 <=? i); [|done].
  destruct (d !! Z.to_nat i); simpl; [|done].
  by destruct (slice_by_indices d idx).
Qed.

(** X11. Transforming on the fly is the same as transforming beforehand:
    the batch of a [DynamicDataGenerator] with [func] (or of a
    [UnitDynamicDataGenerator] whose unit transforms with [func]) over a
    data pack is the batch of a plain [DataGenerator] over the data pack
    with [func] applied to all its texts, for every index list. *)
Theorem dynamic_transform_agrees_with_static s s' (func : Value -> Value) d idx :
  (class_of (self s) = DynamicDataGenerator (Some func) \/
   exists u, class_of (self s) = UnitDynamicDataGenerator (Some u) /\
             transform u = func) ->
  heap s !! _data_pack (self s) = Some d ->
  class_of (self s') = DataGenerator ->
  heap s' !! _data_pack (self s') = Some (transformed func d) ->
  (_get_batch_of_transformed_samples upsample idx s).1
  = (_get_batch_of_transformed_samples upsample idx s').1.
Proof.
  intros Hcls Hd Hcls' Hd'.
  rewrite !get_batch_result_total, Hd, Hd', Hcls', slice_by_indices_transformed.
  destruct (slice_by_indices d idx) as [sl|e]; [|done].
  by destruct Hcls as [->|(u & -> & <-)].
Qed.

(** X12. [DataGeneratorFusion] is [OrigPairGeneratorUsingNewInterface]
    over transformed data: with the same [num_neg] and [num_dup] and the
    random source in the same state, the fusion batch over a data pack is
    the pair generator's batch over the data pack with the unit's
    transform applied to all its texts. *)
Theorem fusion_agrees_with_pair_generator_on_transformed_data
    s s' (u : Unit Value) num_neg num_dup d idx :
  class_of (self s) = DataGeneratorFusion num_neg num_dup (Some u) ->
  heap s !! _data_pack (self s) = Some d ->
  class_of (self s') = OrigPairGeneratorUsingNewInterface num_neg num_dup ->
  heap s' !! _data_pack (self s') = Some (transformed (transform u) d) ->
  rng s' = rng s ->
  (_get_batch_of_transformed_samples upsample idx s).1
  = (_get_batch_of_transformed_samples upsample idx s').1.
Proof.
  intros Hcls Hd Hcls' Hd' Hrng.
  rewrite !get_batch_result_total, Hd, Hd', Hcls, Hcls', Hrng,
    slice_by_indices_transformed.
  by destruct (slice_by_indices d idx).
Qed.

Lemma elem_of_concat {A} (x : A) (ls : list (list A)) :
  x ∈ concat ls <-> exists l, x ∈ l /\ l ∈ ls.
Proof.
  induction ls as [|l ls IH]; simpl.
  - split; [by intros ?%elem_of_nil|by intros (? & _ & ?%elem_of_nil)].
  - rewrite elem_of_app, IH. split.
    + intros [Hx|(k & Hx & Hk)]; [exists l|exists k];
        (split; [done|]); [by left|by right].
    + intros (k & Hx & [->|Hk]%elem_of_cons); [by left|right; by exists k].
Qed.

Lemma getitem_Ok_elem {A} (l : list A) i x : getitem l i = Ok x -> x ∈ l.
Proof.
  unfold getitem. destruct (_ && _); [|done].
  destruct (l !! _) as [y|] eqn:Hy; [|done].
  intros [= <-]. by apply list_elem_of_lookup_2 in Hy.
Qed.

(** Whatever index list a request resolves to, its indices come from
    the table. *)
Lemma item_indices_subseteq s table item idx :
  _batch_indices (self s) = Some table ->
  (item_indices item s).1 = Ok idx -> idx ⊆ concat table.
Proof.
  intros Ht. destruct item as [i|sl].
  - rewrite (item_indices_index _ _ _ Ht). simpl. intros Hi%getitem_Ok_elem.
    intros x Hx. apply elem_of_concat. by exists idx.
  - rewrite (item_indices_range _ _ _ Ht). simpl. unfold getslice.
    destruct (slice_positions sl (len table)) as [ps|]; [|done].
    intros [= <-] x (b & Hx & Hb)%elem_of_concat.
    apply list_elem_of_omap in Hb as (p & _ & Hb).
    apply elem_of_concat. exists b. split; [done|].
    by apply list_elem_of_lookup_2 in Hb.
Qed.

Lemma range_resolves s table sl :
  _batch_indices (self s) = Some table -> slice_step sl <> Some 0 ->
  exists idx, item_indices (Range sl) s = (Ok idx, s).
Proof.
  intros Ht Hstep. rewrite (item_indices_range _ _ _ Ht).
  unfold getslice, slice_positions, indices.
  destruct (Z.eqb_spec (default 1 (slice_step sl)) 0) as [Hz|Hz]; [|by eexists].
  destruct (slice_step sl) as [z|]; simpl in Hz; [by subst|done].
Qed.

(** X4. A slice request never raises IndexError.  With a step of 0 it
    fails with ValueError and changes nothing; with any other slice the
    index list is resolved, and all its indices come from the table. *)
Theorem slice_request_resolution s table sl :
  _batch_indices (self s) = Some table ->
  (slice_step sl = Some 0 ->
   __getitem__ upsample (Range sl) s = (Raise ValueError, s)) /\
  (slice_step sl <> Some 0 ->
   exists idx,
     item_indices (Range sl) s = (Ok idx, s) /\ idx ⊆ concat table).
Proof.
  intros Ht. split.
  - intros Hstep. apply getitem_raise. rewrite (item_indices_range _ _ _ Ht).
    unfold getslice, slice_positions, indices. by rewrite Hstep.
  - intros Hstep. destruct (range_resolves s table sl Ht Hstep) as [idx Hidx].
    exists idx. split; [done|].
    apply (item_indices_subseteq s table (Range sl)); [done|by rewrite Hidx].
Qed.

Lemma materialized_missing_unit cls sl (g : Rng) :
  unit_is_none cls = true -> materialized cls sl g = Raise AttributeError.
Proof. by destruct cls as [|[?|]|[?|]| |? ? [?|]]. Qed.

(** X5. On an empty data pack every slice request with a step other
    than 0 resolves to the empty index list, and the plain generator
    answers it with the empty batch (where a single index raises
    IndexError). *)
Theorem slice_of_empty_dataset_is_empty_batch s sl :
  reachable s -> heap s !! _data_pack (self s) = Some [] ->
  slice_step sl <> Some 0 ->
  item_indices (Range sl) s = (Ok [], s) /\
  (__getitem__ upsample (Range sl) s).1 = materialized (class_of (self s)) [] (rng s) /\
  (class_of (self s) = DataGenerator ->
   (__getitem__ upsample (Range sl) s).1 = Ok (MkFeatures [] [], [])).
Proof.
  intros (d & s0 & Hd & Hbs & Hc & Ht)%reachable_partitioned Hempty Hstep.
  rewrite Hd in Hempty. injection Hempty as ->.
  assert (Hz : ceil_div (len (@nil (Instance Value Label))) (_batch_size (self s)) = 0)
    by (unfold ceil_div; simpl; by rewrite Z.div_0_l).
  rewrite Hz in Ht. simpl in Ht.
  destruct (range_resolves s _ sl Ht Hstep) as [idx Hidx].
  assert (idx = []) as ->.
  { pose proof (item_indices_subseteq s _ (Range sl) idx Ht) as Hsub.
    rewrite Hidx in Hsub. specialize (Hsub eq_refl).
    destruct idx as [|x idx]; [done|].
    assert (Hx : x ∈ concat (@nil (list Z))) by (apply Hsub; left).
    by apply elem_of_nil in Hx. }
  split; [done|].
  assert (Hres : (__getitem__ upsample (Range sl) s).1
                 = materialized (class_of (self s)) [] (rng s)).
  { rewrite getitem_result, Hidx. simpl.
    by rewrite get_batch_result_total, Hd. }
  split; [done|]. intros Hcls. by rewrite Hres, Hcls.
Qed.









Lemma getslice_reversed {A} (l : list A) :
  getslice l (Slice None None (Some (-1))) = Ok (reverse l).
Proof.
  unfold getslice.
  destruct (slice_positions (Slice None None (Some (-1))) (len l)) as [ps|] eqn:Hps;
    [|done].
  pose proof (slice_positions_bounds _ _ ps (len_nonneg l) Hps) as Hbounds.
  pose proof (omap_lookup_Forall2 l ps Hbounds) as Hall.
  f_equal. revert Hall. generalize (omap (fun p : Z => l !! Z.to_nat p) ps).
  intros xs Hall.
  unfold slice_positions, indices, positions, slicelength in Hps. simpl in Hps.
  injection Hps as <-.
  assert (Hcount : Z.to_nat (if -1 <? len l - 1
                             then (len l - 1 - -1 - 1) `div` (- (-1)) + 1 else 0)
                   = length l).
  { unfold len. change (- (-1)) with 1.
    destruct (Z.ltb_spec (-1) (Z.of_nat (length l) - 1));
      [rewrite Z.div_1_r|]; lia. }
  rewrite Hcount in Hall.
  apply list_eq. intros k.
  destruct (decide (k < length l)%nat) as [Hk|Hk].
  - rewrite reverse_lookup by done.
    assert (Hp : ((fun k0 : nat => len l - 1 + Z.of_nat k0 * -1) <$> seq 0 (length l)) !! k
                 = Some (len l - 1 + Z.of_nat k * -1)).
    { rewrite list_lookup_fmap, lookup_seq_lt by done. done. }
    destruct (Forall2_lookup_l _ _ _ _ _ Hall Hp) as (x & Hx & Hlx).
    rewrite Hx, <- Hlx. f_equal. unfold len. lia.
  - apply Forall2_length in Hall. rewrite length_fmap, length_seq in Hall.
    rewrite !lookup_ge_None_2; [done|rewrite length_reverse; lia|lia].
Qed.

(** X3. [gen[::-1]] resolves to the batches of the table from the last
    to the first, each batch in its own order. *)
Theorem reversed_slice_reverses_the_batches s table :
  _batch_indices (self s) = Some table ->
  item_indices (Range (Slice None None (Some (-1)))) s
  = (Ok (concat (reverse table)), s).
Proof.
  intros Ht. by rewrite (item_indices_range _ _ _ Ht), getslice_reversed.
Qed.

Section MoreRequests.

Hypothesis permutation_spec :
  forall n g, 0 <= n -> (permutation n g).1 ≡ₚ range n.

Lemma reachable_table_indices s :
  reachable s ->
  exists d table,
    heap s !! _data_pack (self s) = Some d /\
    _batch_indices (self s) = Some table /\
    len table = ceil_div (len d) (_batch_size (self s)) /\
    Forall (fun j => 0 <= j < len d) (concat table).
Proof.
  intros (d & s0 & Hd & Hbs & Hc & Ht)%reachable_partitioned.
  eexists d, _. split; [done|]. split; [done|].
  split; [rewrite length_chunks; lia|].
  apply Forall_forall. intros x (b & Hx & Hb)%elem_of_concat.
  apply list_elem_of_fmap in Hb as (i & -> & _).
  apply chunk_subseteq in Hx. pose proof (len_nonneg d) as HN.
  rewrite (index_pool_Permutation permutation_spec s0 _ HN) in Hx.
  apply elem_of_seqZ in Hx. lia.
Qed.

(** A request that resolves is answered with what the materializer
    makes of the instances at its indices. *)
Lemma resolved_request_result s item idx :
  reachable s -> (item_indices item s).1 = Ok idx ->
  exists d rows,
    heap s !! _data_pack (self s) = Some d /\
    slice_by_indices d idx = Ok rows /\
    (__getitem__ upsample item s).1 = materialized (class_of (self s)) rows (rng s).
Proof.
  intros (d & table & Hd & Ht & _ & Hvalid)%reachable_table_indices Hidx.
  destruct (slice_by_indices_ok d idx) as [rows Hrows].
  { apply Forall_forall. intros x Hx.
    rewrite Forall_forall in Hvalid. apply Hvalid.
    by apply (item_indices_subseteq s table item idx). }
  exists d, rows. split; [done|]. split; [done|].
  by rewrite getitem_result, Hidx, get_batch_result_total, Hd, Hrows.
Qed.

Lemma index_resolves s table i :
  _batch_indices (self s) = Some table -> - len table <= i < len table ->
  exists idx, (item_indices (Index i) s).1 = Ok idx.
Proof.
  intros Ht Hi. rewrite (item_indices_index _ _ _ Ht). simpl.
  destruct (getitem table i) as [idx|e] eqn:Hg; [by eexists|].
  destruct e; try (unfold getitem in Hg; repeat case_match; congruence).
  apply getitem_IndexError in Hg. lia.
Qed.

(** X13. In a constructed generator of any class, every request for a
    single index in [-B, B) and every slice request with a step other
    than 0 gets as far as the materializer: it resolves to an index
    list, the indices slice the data pack, and the result of the request
    is what the materializer of the class makes of the sliced instances.
    For the plain [DataGenerator], which calls nothing of the caller's,
    that is a batch: the request returns the sliced instances unpacked,
    and no exception arises. *)
Theorem requests_in_range_return_a_batch s B :
  reachable s -> (__len__ s).1 = Ok B ->
  forall item,
    match item with
    | Index i => - B <= i < B
    | Range sl => slice_step sl <> Some 0
    end ->
    exists idx d rows,
      item_indices item s = (Ok idx, s) /\
      heap s !! _data_pack (self s) = Some d /\
      slice_by_indices d idx = Ok rows /\
      (__getitem__ upsample item s).1
      = materialized (class_of (self s)) rows (rng s) /\
      (class_of (self s) = DataGenerator ->
       __getitem__ upsample item s
       = (Ok (unpack_pack rows), (__getitem__ upsample item s).2) /\
       is_ok (__getitem__ upsample item s).1 = true).
Proof.
  intros Hreach HB item Hitem.
  destruct (reachable_table_indices s Hreach) as (d & table & Hd & Ht & Hlen & _).
  destruct (reachable_partitioned s Hreach) as (d' & _ & Hd' & Hbs & _).
  rewrite Hd in Hd'. injection Hd' as <-.
  rewrite (len_run s d Hd Hbs) in HB. injection HB as <-.
  assert (Hres : exists idx, (item_indices item s).1 = Ok idx).
  { destruct item as [i|sl].
    - apply (index_resolves s table i Ht). lia.
    - destruct (range_resolves s table sl Ht Hitem) as [idx Hidx].
      exists idx. by rewrite Hidx. }
  destruct Hres as [idx Hidx].
  destruct (resolved_request_result s item idx Hreach Hidx)
    as (d' & rows & Hd' & Hrows & Hbatch).
  rewrite Hd in Hd'. injection Hd' as <-.
  exists idx, d, rows.
  split.
  { pose proof (item_indices_state item s) as Hst.
    destruct (item_indices item s) as [r s1]. simpl in *. by subst. }
  split; [done|]. split; [done|]. split; [done|].
  intros Hcls. rewrite Hcls in Hbatch. simpl in Hbatch.
  split; [|by rewrite Hbatch].
  rewrite <- Hbatch. by destruct (__getitem__ upsample item s).
Qed.

(** X14. A [UnitDynamicDataGenerator] or [DataGeneratorFusion] that was
    constructed without a unit (the default [unit=None]) constructs like
    any other, but every request for a single index in [-B, B) and every
    slice request with a step other than 0 fails with AttributeError. *)
Theorem missing_unit_fails_every_request s B :
  reachable s -> unit_is_none (class_of (self s)) = true ->
  (__len__ s).1 = Ok B ->
  (forall i, - B <= i < B ->
     (__getitem__ upsample (Index i) s).1 = Raise AttributeError) /\
  (forall sl, slice_step sl <> Some 0 ->
     (__getitem__ upsample (Range sl) s).1 = Raise AttributeError).
Proof.
  intros Hreach Hunit HB.
  destruct (reachable_table_indices s Hreach) as (d & table & Hd & Ht & Hlen & _).
  destruct (reachable_partitioned s Hreach) as (d' & _ & Hd' & Hbs & _).
  rewrite Hd in Hd'. injection Hd' as <-.
  rewrite (len_run s d Hd Hbs) in HB. injection HB as <-.
  split.
  - intros i Hi. destruct (index_resolves s table i Ht) as [idx Hidx]; [lia|].
    destruct (resolved_request_result s _ idx Hreach Hidx) as (? & rows & _ & _ & ->).
    by apply materialized_missing_unit.
  - intros sl Hstep. destruct (range_resolves s table sl Ht Hstep) as [idx Hidx].
    destruct (resolved_request_result s (Range sl) idx Hreach) as (? & rows & _ & _ & ->);
      [by rewrite Hidx|].
    by apply materialized_missing_unit.
Qed.


End MoreRequests.

End Facts.

(** ** The properties at concrete generators *)

Lemma rotations_spec (n : Z) (g : nat) :
  0 <= n -> (Sample.rotations n g).1 ≡ₚ range n.
Proof.
  intros _. unfold Sample.rotations, rotate. simpl.
  rewrite Permutation_app_comm. by rewrite take_drop.
Qed.

Lemma scenario_a_reachable (cls : GeneratorClass Z) :
  reachable Sample.rotations Sample.duplicate (Sample.scenario_a cls).
Proof. by eapply (reach_init _ _ cls 1%positive 3 false (Sample.store_of 10) 0%nat). Qed.

Lemma shuffled_reachable (cls : GeneratorClass Z) :
  reachable Sample.rotations Sample.duplicate (Sample.shuffled cls).
Proof. by eapply (reach_init _ _ cls 1%positive 3 true (Sample.store_of 10) 0%nat). Qed.




Lemma slice_concatenates_batches_witness :
  exists batches,
    Forall2 (fun p b =>
               item_indices (Index p) (Sample.scenario_a DataGenerator)
               = (Ok b, Sample.scenario_a DataGenerator)) [1; 3] batches /\
    item_indices (Range (Slice (Some 1) None (Some 2))) (Sample.scenario_a DataGenerator)
    = (Ok (concat batches), Sample.scenario_a DataGenerator) /\
    __getitem__ Sample.duplicate (Range (Slice (Some 1) None (Some 2)))
      (Sample.scenario_a DataGenerator)
    = _get_batch_of_transformed_samples Sample.duplicate (concat batches)
        (Sample.scenario_a DataGenerator) /\
    (0 < default 1 (slice_step (Slice (Some 1) None (Some 2))) ->
     item_indices (Range (Slice (Some 1) None (Some 2))) (Sample.scenario_a DataGenerator)
     = (indices_in_table_order [[0; 1; 2]; [3; 4; 5]; [6; 7; 8]; [9]]
          (Slice (Some 1) None (Some 2)),
        Sample.scenario_a DataGenerator)).
Proof.
  apply (slice_concatenates_batches Sample.duplicate (Sample.scenario_a DataGenerator)
           [[0; 1; 2]; [3; 4; 5]; [6; 7; 8]; [9]] (Slice (Some 1) None (Some 2)) [1; 3]);
    reflexivity.
Defined.

Lemma single_index_out_of_range_witness :
  exists B,
    (__len__ (Sample.scenario_a DataGenerator)).1 = Ok B /\
    (forall i, B <= i \/ i < - B ->
       __getitem__ Sample.duplicate (Index i) (Sample.scenario_a DataGenerator)
       = (Raise IndexError, Sample.scenario_a DataGenerator)) /\
    (forall d,
       heap (Sample.scenario_a DataGenerator)
         !! _data_pack (self (Sample.scenario_a DataGenerator)) = Some d ->
       len d = 0 ->
       B = 0 /\
       forall i,
         __getitem__ Sample.duplicate (Index i) (Sample.scenario_a DataGenerator)
         = (Raise IndexError, Sample.scenario_a DataGenerator)).
Proof.
  apply (single_index_out_of_range Sample.rotations Sample.duplicate).
  apply scenario_a_reachable.
Defined.

Lemma construction_without_positive_batch_size_witness :
  let r := __init__ Sample.rotations DataGenerator 1%positive (-5) true
             (Sample.store_of 2) 0%nat in
  (-5 = 0 -> r.1 = Raise ZeroDivisionError) /\
  (-5 < 0 -> - -5 <= len (Sample.pack 2) -> r.1 = Raise ValueError) /\
  (-5 < 0 -> len (Sample.pack 2) < - -5 ->
     r.1 = Ok tt /\ _batch_indices (self r.2) = Some []).
Proof.
  apply (construction_without_positive_batch_size Sample.rotations);
    [reflexivity|lia].
Defined.

Lemma getitem_index_list_is_stable_witness :
  let s := Sample.shuffled DataGenerator in
  let s1 := (__getitem__ Sample.duplicate (Index 1) s).2 in
  let s2 := run_calls Sample.rotations Sample.duplicate
              [CallLen; CallGetitem (Index 0)] s1 in
  _batch_indices (self s2) = _batch_indices (self s) /\
  (item_indices (Index 1) s1).1 = (item_indices (Index 1) s).1 /\
  (item_indices (Index 1) s2).1 = (item_indices (Index 1) s).1.
Proof.
  apply (getitem_index_list_is_stable Sample.rotations Sample.duplicate
           [CallLen; CallGetitem (Index 0)] (Index 1) (Sample.shuffled DataGenerator)).
  repeat constructor.
Defined.

Lemma fusion_transforms_before_upsampling_witness :
  let s := Sample.scenario_a (DataGeneratorFusion 1 2 (Some Sample.double)) in
  let sl := [MkInstance 103 203 false; MkInstance 104 204 true; MkInstance 105 205 false] in
  let dp := transformed (transform Sample.double) sl in
  text_left <$> dp = transform Sample.double <$> (text_left <$> sl) /\
  text_right <$> dp = transform Sample.double <$> (text_right <$> sl) /\
  label <$> dp = label <$> sl /\
  (_get_batch_of_transformed_samples Sample.duplicate [3; 4; 5] s).1
  = Ok (unpack_pack (Sample.duplicate dp 2 1 (rng s)).1).
Proof.
  apply (fusion_transforms_before_upsampling Sample.duplicate
           (Sample.scenario_a (DataGeneratorFusion 1 2 (Some Sample.double)))
           (Sample.pack 10) [3; 4; 5]); reflexivity.
Defined.

Lemma negative_index_counts_from_end_witness :
  exists d table idx sl,
    heap (Sample.shuffled DataGenerator)
      !! _data_pack (self (Sample.shuffled DataGenerator)) = Some d /\
    _batch_indices (self (Sample.shuffled DataGenerator)) = Some table /\
    table !! Z.to_nat (4 + -1) = Some idx /\
    item_indices (Index (-1)) (Sample.shuffled DataGenerator)
    = (Ok idx, Sample.shuffled DataGenerator) /\
    slice_by_indices d idx = Ok sl /\
    (__getitem__ Sample.duplicate (Index (-1)) (Sample.shuffled DataGenerator)).1
    = materialized Sample.duplicate (class_of (self (Sample.shuffled DataGenerator)))
        sl (rng (Sample.shuffled DataGenerator)) /\
    (has_unit (class_of (self (Sample.shuffled DataGenerator))) = true ->
     is_ok (__getitem__ Sample.duplicate (Index (-1)) (Sample.shuffled DataGenerator)).1
     = true) /\
    (forall j,
       (item_indices (Index j) (Sample.shuffled DataGenerator)).1 = Raise IndexError
       <-> 4 <= j \/ j < - 4).
Proof.
  apply (negative_index_counts_from_end Sample.rotations Sample.duplicate rotations_spec);
    [apply shuffled_reachable|reflexivity|lia|lia].
Defined.

(** ** Where the code departs from the claims *)

(** C4 as stated fails for a slice with a negative step: [gen[::-1]] on the
    generator of scenario A concatenates the batches from the last to the
    first, not in the order of the table. *)
Lemma reversed_slice_is_not_in_table_order :
  _batch_indices (self (Sample.scenario_a DataGenerator))
  = Some [[0; 1; 2]; [3; 4; 5]; [6; 7; 8]; [9]] /\
  (item_indices (Range (Slice None None (Some (-1)))) (Sample.scenario_a DataGenerator)).1
  = Ok [9; 6; 7; 8; 3; 4; 5; 0; 1; 2] /\
  indices_in_table_order [[0; 1; 2]; [3; 4; 5]; [6; 7; 8]; [9]]
    (Slice None None (Some (-1)))
  = Ok [0; 1; 2; 3; 4; 5; 6; 7; 8; 9].
Proof. repeat split. Qed.

(** C5 as stated fails for a negative index: on the generator of
    scenario A, of length 4, the index -1 is outside [0, 4) and yet
    [gen[-1]] returns the last batch. *)
Lemma negative_index_is_served :
  (__len__ (Sample.scenario_a DataGenerator)).1 = Ok 4 /\
  ~ (0 <= -1 < 4) /\
  (__getitem__ Sample.duplicate (Index (-1)) (Sample.scenario_a DataGenerator)).1
  = Ok (MkFeatures [109] [209], [false]).
Proof. split; [done|]. split; [lia|done]. Qed.

(** C6 as stated fails for a negative batch size with few instances:
    with 2 instances and a batch size of -5 construction succeeds, the
    partition table is empty, and a batch can be requested. *)
Lemma negative_batch_size_is_accepted :
  (__init__ Sample.rotations DataGenerator 1%positive (-5) true
     (Sample.store_of 2) 0%nat).1 = Ok tt /\
  _batch_indices
    (self (__init__ Sample.rotations DataGenerator 1%positive (-5) true
             (Sample.store_of 2) 0%nat).2) = Some [] /\
  (__getitem__ Sample.duplicate (Range (Slice None None None))
     (__init__ Sample.rotations DataGenerator 1%positive (-5) true
        (Sample.store_of 2) 0%nat).2).1
  = Ok (MkFeatures [] [], []).
Proof. repeat split. Qed.

(** ** Further properties at concrete generators *)

Lemma empty_generator_reachable :
  reachable Sample.rotations Sample.duplicate Sample.empty_generator.
Proof.
  by eapply (reach_init _ _ DataGenerator 1%positive 3 false (Sample.store_of 0) 0%nat).
Qed.


Lemma consecutive_batches_are_a_stretch_of_the_pool_witness :
  let s := Sample.shuffled DataGenerator in
  exists table,
    _batch_indices (self s) = Some table /\
    item_indices (Range (Slice None None None)) s = (Ok (concat table), s) /\
    item_indices (Range (Slice (Some 1) (Some 3) None)) s
    = (Ok (take (Z.to_nat ((3 - 1) * _batch_size (self s)))
             (drop (Z.to_nat (1 * _batch_size (self s))) (concat table))), s).
Proof.
  apply (consecutive_batches_are_a_stretch_of_the_pool
           Sample.rotations Sample.duplicate);
    [apply shuffled_reachable|by vm_compute|lia].
Defined.

Lemma reversed_slice_reverses_the_batches_witness :
  item_indices (Range (Slice None None (Some (-1)))) (Sample.scenario_a DataGenerator)
  = (Ok (concat (reverse [[0; 1; 2]; [3; 4; 5]; [6; 7; 8]; [9]])),
     Sample.scenario_a DataGenerator).
Proof. apply reversed_slice_reverses_the_batches. reflexivity. Defined.

Lemma slice_request_resolution_witness :
  let s := Sample.scenario_a DataGenerator in
  let sl := Slice None None (Some 0) in
  (slice_step sl = Some 0 ->
   __getitem__ Sample.duplicate (Range sl) s = (Raise ValueError, s)) /\
  (slice_step sl <> Some 0 ->
   exists idx,
     item_indices (Range sl) s = (Ok idx, s) /\
     idx ⊆ concat [[0; 1; 2]; [3; 4; 5]; [6; 7; 8]; [9]]).
Proof. apply slice_request_resolution. reflexivity. Defined.

Lemma slice_of_empty_dataset_is_empty_batch_witness :
  let s := Sample.empty_generator in
  let sl := Slice None None None in
  item_indices (Range sl) s = (Ok [], s) /\
  (__getitem__ Sample.duplicate (Range sl) s).1
  = materialized Sample.duplicate (class_of (self s)) [] (rng s) /\
  (class_of (self s) = DataGenerator ->
   (__getitem__ Sample.duplicate (Range sl) s).1 = Ok (MkFeatures [] [], [])).
Proof.
  apply (slice_of_empty_dataset_is_empty_batch Sample.rotations Sample.duplicate);
    [apply empty_generator_reachable|reflexivity|discriminate].
Defined.

Lemma repartition_without_shuffle_is_identity_witness :
  let s := Sample.scenario_a DataGenerator in
  on_epoch_end Sample.rotations s = (Ok tt, s) /\
  reset Sample.rotations s = (Ok tt, s).
Proof.
  apply (repartition_without_shuffle_is_identity Sample.rotations Sample.duplicate);
    [apply scenario_a_reachable|reflexivity].
Defined.

Lemma repartition_touches_table_and_rng_only_witness :
  let s := Sample.shuffled DataGenerator in
  exists d,
    heap s !! _data_pack (self s) = Some d /\
    let s' := (on_epoch_end Sample.rotations s).2 in
    (on_epoch_end Sample.rotations s).1 = Ok tt /\
    heap s' = heap s /\
    class_of (self s') = class_of (self s) /\
    _data_pack (self s') = _data_pack (self s) /\
    _batch_size (self s') = _batch_size (self s) /\
    _shuffle (self s') = _shuffle (self s) /\
    rng s' = (if _shuffle (self s) then (Sample.rotations (len d) (rng s)).2 else rng s).
Proof.
  apply (repartition_touches_table_and_rng_only Sample.rotations Sample.duplicate).
  apply shuffled_reachable.
Defined.



Lemma dynamic_transform_agrees_with_static_witness :
  (_get_batch_of_transformed_samples Sample.duplicate [3; 4; 5]
     (Sample.scenario_a (DynamicDataGenerator (Some (transform Sample.double))))).1
  = (_get_batch_of_transformed_samples Sample.duplicate [3; 4; 5]
       (Sample.doubled_beforehand DataGenerator)).1.
Proof.
  apply (dynamic_transform_agrees_with_static Sample.duplicate _ _
           (transform Sample.double) (Sample.pack 10));
    [by left|reflexivity|reflexivity|reflexivity].
Defined.

Lemma fusion_agrees_with_pair_generator_on_transformed_data_witness :
  (_get_batch_of_transformed_samples Sample.duplicate [3; 4; 5]
     (Sample.scenario_a (DataGeneratorFusion 1 2 (Some Sample.double)))).1
  = (_get_batch_of_transformed_samples Sample.duplicate [3; 4; 5]
       (Sample.doubled_beforehand (OrigPairGeneratorUsingNewInterface 1 2))).1.
Proof.
  apply (fusion_agrees_with_pair_generator_on_transformed_data Sample.duplicate _ _
           Sample.double 1 2 (Sample.pack 10));
    reflexivity.
Defined.

Lemma requests_in_range_return_a_batch_witness :
  let s := Sample.shuffled DataGenerator in
  let item := Index (-1) in
  exists idx d rows,
    item_indices item s = (Ok idx, s) /\
    heap s !! _data_pack (self s) = Some d /\
    slice_by_indices d idx = Ok rows /\
    (__getitem__ Sample.duplicate item s).1
    = materialized Sample.duplicate (class_of (self s)) rows (rng s) /\
    (class_of (self s) = DataGenerator ->
     __getitem__ Sample.duplicate item s
     = (Ok (unpack_pack rows), (__getitem__ Sample.duplicate item s).2) /\
     is_ok (__getitem__ Sample.duplicate item s).1 = true).
Proof.
  apply (requests_in_range_return_a_batch Sample.rotations Sample.duplicate
           rotations_spec (Sample.shuffled DataGenerator) 4);
    [apply shuffled_reachable|reflexivity|simpl; lia].
Defined.

Lemma missing_unit_fails_every_request_witness :
  let s := Sample.shuffled (UnitDynamicDataGenerator None) in
  (forall i, - 4 <= i < 4 ->
     (__getitem__ Sample.duplicate (Index i) s).1 = Raise AttributeError) /\
  (forall sl, slice_step sl <> Some 0 ->
     (__getitem__ Sample.duplicate (Range sl) s).1 = Raise AttributeError).
Proof.
  apply (missing_unit_fails_every_request Sample.rotations Sample.duplicate
           rotations_spec (Sample.shuffled (UnitDynamicDataGenerator None)) 4);
    [apply shuffled_reachable|reflexivity|reflexivity].
Defined.
